(** * BrainRender video maker: shallow embedding and checked properties

    The development embeds [brainrender/animation/video.py] (the class
    [BasicVideoMaker]) and [brainrender/animation/video_utils.py] (the OpenCV
    helpers).  Python objects are records, attribute mutation is explicit
    state passing, and exceptions are an outcome of every command: the state
    reached when an exception is raised is kept, because Python keeps it. *)

From stdpp Require Import base strings pretty gmap list.
From Stdlib Require Import ZArith Ascii String.

Open Scope Z_scope.
Open Scope string_scope.

(** ** Python built-ins on [str] and [int] *)

Module Py.

(** [c.lower()] on one ASCII character. *)
Definition lower_ascii (c : ascii) : ascii :=
  let n := nat_of_ascii c in
  if ((65 <=? n) && (n <=? 90))%nat then ascii_of_nat (n + 32) else c.

(** [s.lower()]. *)
Fixpoint lower (s : string) : string :=
  match s with
  | EmptyString => EmptyString
  | String c t => String (lower_ascii c) (lower t)
  end.

(** [s.startswith(p)]. *)
Fixpoint startswith (p s : string) : bool :=
  match p, s with
  | EmptyString, _ => true
  | String _ _, EmptyString => false
  | String a p', String b s' => bool_decide (a = b) && startswith p' s'
  end.

(** [s.endswith(c)] for a one-character suffix. *)
Fixpoint endswith_char (c : ascii) (s : string) : bool :=
  match s with
  | EmptyString => false
  | String a EmptyString => bool_decide (a = c)
  | String _ t => endswith_char c t
  end.

(** [sub in s]: substring test. *)
Fixpoint contains (sub s : string) : bool :=
  startswith sub s ||
  match s with
  | EmptyString => false
  | String _ t => contains sub t
  end.

(** [s.replace(old, new)] for a one-character [old]: a NEW string; [s]
    itself is immutable. *)
Fixpoint replace (old : ascii) (new s : string) : string :=
  match s with
  | EmptyString => EmptyString
  | String c t =>
      if bool_decide (c = old) then new +:+ replace old new t
      else String c (replace old new t)
  end.

(** [int(x)] on a value that already is an [int]. *)
Definition int (x : Z) : Z := x.

(** [str(n)] for a length. *)
Definition str (n : nat) : string := pretty n.

(** [kwargs.pop(key, default)] read side: the value given, else the default. *)
Definition pop {A} (given : option A) (dflt : A) : A :=
  match given with
  | Some v => v
  | None => dflt
  end.

End Py.

(** ** [os.path] (posixpath) *)

Module OsPath.

Definition sep : string := "/".

(** [os.path.join(a, b)]. *)
Definition join (a b : string) : string :=
  if Py.startswith sep b then b
  else if bool_decide (a = "") || Py.endswith_char "/" a then a +:+ b
  else a +:+ sep +:+ b.

(** A path as the kernel resolves it from the working directory [cwd]
    (no normalisation of [.] and [..]). *)
Definition resolve (cwd p : string) : string := join cwd p.

End OsPath.

(** ** Exceptions and the command monad *)

Inductive exn : Type :=
  | FileNotFoundError
  | EOFError
  | ZeroDivisionError
  | AttributeError
  | ValueError (msg : string).

Inductive outcome (A : Type) : Type :=
  | Returned (a : A)
  | Raised (e : exn).
Arguments Returned {A} a.
Arguments Raised {A} e.

(** A command over a state [S]: the state is threaded through and survives a
    raise. *)
Definition M (S A : Type) : Type := S -> outcome A * S.

Definition ret {S A} (a : A) : M S A := fun s => (Returned a, s).

Definition raise {S A} (e : exn) : M S A := fun s => (Raised e, s).

Definition bind {S A B} (c : M S A) (k : A -> M S B) : M S B :=
  fun s =>
    match c s with
    | (Returned a, s') => k a s'
    | (Raised e, s') => (Raised e, s')
    end.

(** [try: c  except: h]: a bare [except] catches everything; the state
    changes made by [c] before it raised stay. *)
Definition try_except {S A} (c : M S A) (h : exn -> M S A) : M S A :=
  fun s =>
    match c s with
    | (Returned a, s') => (Returned a, s')
    | (Raised e, s') => h e s'
    end.

Definition get {S} : M S S := fun s => (Returned s, s).
Definition modify {S} (f : S -> S) : M S unit := fun s => (Returned tt, f s).

Notation "'let!' x ':=' c 'in' k" := (bind c (fun x => k))
  (at level 10, x pattern, c at level 100, k at level 200).
Notation "'run!' c 'in' k" := (bind c (fun _ => k))
  (at level 10, c at level 100, k at level 200).

(** ** The world outside the program *)

(** Camera moves requested through [scene.plotter.camera]; the pose is the
    history of moves, each relative to the pose before it. *)
Inductive cam_op : Type :=
  | Elevation (deg : Z)
  | Azimuth (deg : Z)
  | Roll (deg : Z).

(** A raster image: size and the camera history it shows. *)
Record Image : Type := mkImage {
  im_w : Z;
  im_h : Z;
  im_view : list cam_op
}.

(** A video file as [cv2.VideoWriter] lays it down. *)
Record Video : Type := mkVideo {
  v_fourcc : Z;
  v_fps : Z;
  v_w : Z;
  v_h : Z;
  v_iscolor : bool;
  v_frames : list Image
}.

Inductive File : Type :=
  | FImage (im : Image)
  | FVideo (v : Video).

(** Status notices ([print], [cprint] and the prompt of [input]). *)
Inductive notice : Type :=
  | NSavingIn
  | NExistsAlready
  | NPrompt
  | NExiting
  | NFpsIgnored
  | NCreatingFrames
  | NRecalculatedFps (fps : Z)
  | NSavingToFile
  | NCompleted.

Global Instance notice_eq_dec : EqDecision notice.
Proof. solve_decision. Defined.

(** Operating system and terminal. *)
Record OS : Type := mkOS {
  cwd : string;
  dirs : gset string;
  files : gmap string File;
  tmp_seq : nat;
  stdin : list string;
  stdout : list notice
}.

(** The rendered scene ([scene] and the plotter window behind it). *)
Record Scene : Type := mkScene {
  output_videos : string;
  win_w : Z;
  win_h : Z;
  cam_log : list cam_op;
  n_render : nat
}.

(** ** The [BasicVideoMaker] object *)

(** Keyword arguments of [__init__], [parse_kwargs] and [make_video]: [None]
    is a key that is absent.  [duration] may also be passed as Python's
    [None], hence the two layers. *)
Record kwargs : Type := mkKwargs {
  kw_save_fld : option string;
  kw_save_name : option string;
  kw_video_format : option string;
  kw_duration : option (option Z);
  kw_niters : option Z;
  kw_fps : option Z
}.

Definition no_kwargs : kwargs := mkKwargs None None None None None None.

(** The attributes of [self].  [complete_save_path] and [tmp_dir] do not
    exist before [parse_kwargs] and [initialize_video_creation] set them. *)
Record VideoMaker : Type := mkVideoMaker {
  save_fld : string;
  save_name : string;
  video_format : string;
  duration : option Z;
  niters : Z;
  fps : Z;
  complete_save_path : option string;
  tmp_dir : option string;
  frames : list string
}.

(** The whole state a method runs in. *)
Record State : Type := mkState {
  self : VideoMaker;
  scene : Scene;
  os : OS
}.

Definition with_self (f : VideoMaker -> VideoMaker) (st : State) : State :=
  mkState (f (self st)) (scene st) (os st).

Definition with_scene (f : Scene -> Scene) (st : State) : State :=
  mkState (self st) (f (scene st)) (os st).

Definition with_os (f : OS -> OS) (st : State) : State :=
  mkState (self st) (scene st) (f (os st)).

(** Run a command of the operating system inside a method. *)
Definition lift_os {A} (c : M OS A) : M State A :=
  fun st =>
    let '(r, o) := c (os st) in (r, mkState (self st) (scene st) o).

(** ** Operating-system and terminal primitives *)

Module Os.

Definition set_cwd (d : string) (o : OS) : OS :=
  mkOS d (dirs o) (files o) (tmp_seq o) (stdin o) (stdout o).

Definition set_dirs (ds : gset string) (o : OS) : OS :=
  mkOS (cwd o) ds (files o) (tmp_seq o) (stdin o) (stdout o).

Definition set_files (fs : gmap string File) (o : OS) : OS :=
  mkOS (cwd o) (dirs o) fs (tmp_seq o) (stdin o) (stdout o).

Definition set_tmp_seq (n : nat) (o : OS) : OS :=
  mkOS (cwd o) (dirs o) (files o) n (stdin o) (stdout o).

Definition set_stdin (l : list string) (o : OS) : OS :=
  mkOS (cwd o) (dirs o) (files o) (tmp_seq o) l (stdout o).

Definition set_stdout (l : list notice) (o : OS) : OS :=
  mkOS (cwd o) (dirs o) (files o) (tmp_seq o) (stdin o) l.

(** [os.getcwd()]. *)
Definition getcwd : M OS string := fun o => (Returned (cwd o), o).

(** [os.path.isdir(p)]. *)
Definition isdir (p : string) : M OS bool :=
  fun o => (Returned (bool_decide (OsPath.resolve (cwd o) p ∈ dirs o)), o).

(** [os.path.isfile(p)]. *)
Definition isfile (p : string) : M OS bool :=
  fun o =>
    (Returned (bool_decide (is_Some (files o !! OsPath.resolve (cwd o) p))), o).

(** [os.chdir(p)]. *)
Definition chdir (p : string) : M OS unit :=
  fun o =>
    let d := OsPath.resolve (cwd o) p in
    if bool_decide (d ∈ dirs o) then (Returned tt, set_cwd d o)
    else (Raised FileNotFoundError, o).

(** The paths that lie under directory [d]. *)
Definition under (d p : string) : bool :=
  Py.startswith (OsPath.join d "") p.

(** [os.listdir(p)], as the paths of the entries. *)
Definition listdir (p : string) : M OS (list string) :=
  fun o =>
    let d := OsPath.resolve (cwd o) p in
    if bool_decide (d ∈ dirs o) then
      (Returned (List.filter (under d)
                   ((map_to_list (files o)).*1 ++ elements (dirs o))), o)
    else (Raised FileNotFoundError, o).

(** [print(...)] and [cprint(...)]. *)
Definition print (n : notice) : M OS unit :=
  modify (fun o => set_stdout (stdout o ++ [n]) o).

(** [input(prompt)]: shows the prompt, reads one line. *)
Definition input : M OS string :=
  fun o =>
    let o' := set_stdout (stdout o ++ [NPrompt]) o in
    match stdin o with
    | [] => (Raised EOFError, o')
    | l :: rest => (Returned l, set_stdin rest o')
    end.

(** [tempfile.TemporaryDirectory()]: a new directory, named from a
    counter; its [.name] is returned. *)
Definition TemporaryDirectory : M OS string :=
  fun o =>
    let name := "/tmp/tmp" +:+ pretty (tmp_seq o) in
    (Returned name,
     set_tmp_seq (S (tmp_seq o)) (set_dirs ({[name]} ∪ dirs o) o)).

(** [tmp_dir.cleanup()]: the directory and what is under it are removed. *)
Definition cleanup (name : string) : M OS unit :=
  modify (fun o =>
    set_files (filter (fun kv => under name kv.1 = false) (files o))
      (set_dirs (dirs o ∖ {[name]}) o)).

(** Write (create or replace) the file at path [p]. *)
Definition write_file (p : string) (f : File) : M OS unit :=
  modify (fun o => set_files (<[OsPath.resolve (cwd o) p := f]> (files o)) o).

End Os.

(** ** The OpenCV objects the helpers use *)

Module Cv2.

(** [cv2.VideoWriter_fourcc(c1, c2, c3, c4)]: the four codes packed
    little-endian. *)
Definition VideoWriter_fourcc (c1 c2 c3 c4 : ascii) : Z :=
  let code (c : ascii) := Z.of_nat (nat_of_ascii c) in
  Z.lor (Z.lor (code c1) (Z.shiftl (code c2) 8))
        (Z.lor (Z.shiftl (code c3) 16) (Z.shiftl (code c4) 24)).

(** A [cv2.VideoCapture]: the frames of the source and the read position. *)
Record Cap : Type := mkCap {
  cap_frames : list Image;
  cap_pos : nat;
  cap_fps : Z;
  cap_released : bool
}.

(** [frame.shape] of a frame read from a capture: rows, columns, channels. *)
Definition shape (frame : Image) : list Z := [im_h frame; im_w frame; 3].

(** [s] without its suffix [suf], when it has it. *)
Fixpoint strip_suffix (suf s : string) : option string :=
  if bool_decide (s = suf) then Some ""
  else match s with
       | EmptyString => None
       | String c t => String c <$> strip_suffix suf t
       end.

(** The images [prefix0.png], [prefix1.png], ... from number [i] on, up to
    the first one missing; no more than [n] of them. *)
Fixpoint numbered (fs : gmap string File) (prefix : string) (i n : nat)
  : list Image :=
  match n with
  | O => []
  | S n' =>
      match fs !! (prefix +:+ pretty i +:+ ".png") with
      | Some (FImage im) => im :: numbered fs prefix (S i) n'
      | _ => []
      end
  end.

(** [cv2.VideoCapture(src)]: a video file, a single image, or a numbered
    image sequence named by a [%1d] pattern.  It never raises: a source
    that cannot be opened yields a capture without frames.  A sequence has
    no more images than the file system has files. *)
Definition VideoCapture (src : string) : M OS Cap :=
  fun o =>
    let p := OsPath.resolve (cwd o) src in
    let cap :=
      match files o !! p with
      | Some (FVideo v) => mkCap (v_frames v) 0 (v_fps v) false
      | Some (FImage im) => mkCap [im] 0 1 false
      | None =>
          match strip_suffix "%1d.png" p with
          | Some prefix =>
              mkCap (numbered (files o) prefix 0 (size (files o))) 0 1 false
          | None => mkCap [] 0 0 false
          end
      end in
    (Returned cap, o).

(** [cap.read()]: the pair [(ret, frame)] and the capture moved on. *)
Definition read (cap : Cap) : (bool * option Image) * Cap :=
  match cap_frames cap !! cap_pos cap with
  | Some f =>
      ((true, Some f),
       mkCap (cap_frames cap) (S (cap_pos cap)) (cap_fps cap) (cap_released cap))
  | None => ((false, None), cap)
  end.

(** [cap.set(1, n)]: property 1 is the position in frames. *)
Definition set_pos (cap : Cap) (n : nat) : Cap :=
  mkCap (cap_frames cap) n (cap_fps cap) (cap_released cap).

Definition get_FRAME_COUNT (cap : Cap) : Z := Z.of_nat (List.length (cap_frames cap)).

Definition get_FRAME_WIDTH (cap : Cap) : Z :=
  match cap_frames cap with
  | f :: _ => im_w f
  | [] => 0
  end.

Definition get_FRAME_HEIGHT (cap : Cap) : Z :=
  match cap_frames cap with
  | f :: _ => im_h f
  | [] => 0
  end.

Definition get_FPS (cap : Cap) : Z := cap_fps cap.

Definition release (cap : Cap) : Cap :=
  mkCap (cap_frames cap) (cap_pos cap) (cap_fps cap) true.

(** A [cv2.VideoWriter]: the file it writes and how it was opened. *)
Record Writer : Type := mkWriter {
  wr_path : string;
  wr_fourcc : Z;
  wr_fps : Z;
  wr_w : Z;
  wr_h : Z;
  wr_iscolor : bool
}.

(** [cv2.VideoWriter(filepath, fourcc, framerate, (w, h), iscolor)]: the
    file is created (or truncated) at once. *)
Definition VideoWriter (filepath : string) (fourcc framerate w h : Z)
    (iscolor : bool) : M OS Writer :=
  fun o =>
    let p := OsPath.resolve (cwd o) filepath in
    (Returned (mkWriter p fourcc framerate w h iscolor),
     Os.set_files
       (<[p := FVideo (mkVideo fourcc framerate w h iscolor [])]> (files o)) o).

Definition append_frame (frame : Image) (f : File) : File :=
  match f with
  | FVideo v =>
      FVideo (mkVideo (v_fourcc v) (v_fps v) (v_w v) (v_h v) (v_iscolor v)
                (v_frames v ++ [frame]))
  | FImage im => FImage im
  end.

(** [writer.write(frame)]: the frame goes to the end of the file. *)
Definition write (wr : Writer) (frame : Image) : M OS unit :=
  modify (fun o =>
    Os.set_files (alter (append_frame frame) (wr_path wr) (files o)) o).

End Cv2.

(** ** [video_utils.py] *)

Module VideoUtils.

Import Cv2.

(** [open_cvwriter(filepath, w, h, framerate, format, iscolor)]. *)
Definition open_cvwriter (filepath : string) (w h framerate : Z)
    (format : string) (iscolor : bool) : M OS Writer :=
  try_except
    (let fourcc :=
       if Py.contains "avi" format
       then VideoWriter_fourcc "M" "J" "P" "G"
       else VideoWriter_fourcc "m" "p" "4" "v" in
     VideoWriter filepath fourcc framerate w h iscolor)
    (fun _ => raise (ValueError "Could not create videowriter")).

(** [cap_set_frame(cap, frame_number)]. *)
Definition cap_set_frame (cap : Cap) (frame_number : nat) : Cap :=
  set_pos cap frame_number.

(** [get_cap_selected_frame(cap, show_frame)]: the frame, or [None]. *)
Definition get_cap_selected_frame (cap : Cap) (show_frame : nat)
  : option Image * Cap :=
  let cap := cap_set_frame cap show_frame in
  let '((ret, frame), cap) := read cap in
  if negb ret then (None, cap) else (frame, cap).

(** What [get_video_params] returns. *)
Record params : Type := mkParams {
  p_nframes : Z;
  p_width : Z;
  p_height : Z;
  p_fps : Z;
  p_is_color : bool
}.

(** [get_video_params(cap)], [cap] a capture or the path of one;
    [frame.shape] of [None] is an [AttributeError]. *)
Definition get_video_params (cap : string + Cap) : M OS (params * Cap) :=
  let! cap :=
    match cap with
    | inl path => VideoCapture path
    | inr c => ret c
    end in
  let '(frame, cap) := get_cap_selected_frame cap 0 in
  match frame with
  | None => raise AttributeError
  | Some frame =>
      let is_color :=
        if bool_decide (shape frame !! 1%nat = Some 3) then true else false in
      let cap := cap_set_frame cap 0 in
      let nframes := Py.int (get_FRAME_COUNT cap) in
      let width := Py.int (get_FRAME_WIDTH cap) in
      let height := Py.int (get_FRAME_HEIGHT cap) in
      let fps := get_FPS cap in
      ret (mkParams nframes width height fps is_color, cap)
  end.

(** [get_cap_from_file(videopath)]. *)
Definition get_cap_from_file (videopath : string) : M OS Cap :=
  let! cap :=
    try_except (VideoCapture videopath)
      (fun _ => raise (ValueError ("Could not open video at: " +:+ videopath))) in
  let '((ret_, _), cap) := read cap in
  if negb ret_ then
    raise (ValueError ("Something went wrong, can't read form video: " +:+ videopath))
  else ret (cap_set_frame cap 0).

(** [get_cap_from_images_folder(folder)]; [os.listdir] of a folder that
    is there. *)
Definition get_cap_from_images_folder (folder : string) : M OS Cap :=
  let! isd := Os.isdir folder in
  if negb isd then
    raise (ValueError ("Folder " +:+ folder +:+ " doesn't exist"))
  else
    let! entries := Os.listdir folder in
    if bool_decide (entries = []) then
      raise (ValueError ("Folder " +:+ folder +:+ " is empty"))
    else
      let! cap := VideoCapture (OsPath.join folder "%1d.png") in
      let '((ret_, _), cap) := read cap in
      if negb ret_ then
        raise (ValueError ("Something went wrong, can't read form folder: " +:+ folder))
      else ret (cap_set_frame cap 0).

(** The [while True] loop of [save_videocap_to_video]: one round per frame
    the capture still has, then [ret] is false and the loop breaks. *)
Fixpoint write_frames (writer : Writer) (unread : list Image) : M OS unit :=
  match unread with
  | [] => ret tt
  | frame :: rest =>
      run! write writer frame in
      write_frames writer rest
  end.

(** [save_videocap_to_video(cap, savepath, fmt, fps)]; the writer that was
    opened is returned for inspection (Python returns [None]). *)
Definition save_videocap_to_video (cap : Cap) (savepath fmt : string)
    (fps : Z) : M OS Writer :=
  let fmt := if negb (Py.contains "." fmt) then "." +:+ fmt else fmt in
  let! (pr, cap) := get_video_params (inr cap) in
  let '(mkParams nframes width height _ _) := pr in
  let! writer := open_cvwriter savepath width height fps fmt true in
  run! write_frames writer (drop (cap_pos cap) (cap_frames cap)) in
  let cap := set_pos cap (List.length (cap_frames cap)) in
  let cap := release cap in
  ret writer.

End VideoUtils.

(** ** The scene and the screenshot function of the plotting library *)

Module Vtk.

(** [scene.render(interactive=False, ...)]: one more render pass. *)
Definition render : M State unit :=
  modify (with_scene (fun sc =>
    mkScene (output_videos sc) (win_w sc) (win_h sc) (cam_log sc)
      (S (n_render sc)))).

(** [scene.plotter.camera.Elevation(d)], [.Azimuth(d)], [.Roll(d)]. *)
Definition camera (op : cam_op) : M State unit :=
  modify (with_scene (fun sc =>
    mkScene (output_videos sc) (win_w sc) (win_h sc) (cam_log sc ++ [op])
      (n_render sc))).

(** [screenshot(filename=p)]: the current view goes to the file [p]. *)
Definition screenshot (filename : string) : M State unit :=
  fun st =>
    lift_os
      (Os.write_file filename
         (FImage (mkImage (win_w (scene st)) (win_h (scene st))
                    (cam_log (scene st))))) st.

End Vtk.

(** ** [video.py]: the class [BasicVideoMaker] *)

Module BasicVideoMaker.

Definition set_frames (l : list string) (s : VideoMaker) : VideoMaker :=
  mkVideoMaker (save_fld s) (save_name s) (video_format s) (duration s)
    (niters s) (fps s) (complete_save_path s) (tmp_dir s) l.

Definition set_tmp_dir (d : option string) (s : VideoMaker) : VideoMaker :=
  mkVideoMaker (save_fld s) (save_name s) (video_format s) (duration s)
    (niters s) (fps s) (complete_save_path s) d (frames s).

Definition set_fps (f : Z) (s : VideoMaker) : VideoMaker :=
  mkVideoMaker (save_fld s) (save_name s) (video_format s) (duration s)
    (niters s) f (complete_save_path s) (tmp_dir s) (frames s).

(** [__init__(self, scene, **kwargs)]; [now] is the time stamp
    [datetime.datetime.now().strftime(...)]. *)
Definition init (sc : Scene) (now : string) (kw : kwargs) : VideoMaker :=
  mkVideoMaker
    (Py.pop (kw_save_fld kw) (output_videos sc))
    (Py.pop (kw_save_name kw) ("brainrender_video_" +:+ "_" +:+ now))
    (Py.pop (kw_video_format kw) "mp4")
    (Py.pop (kw_duration kw) (Some 3))
    (Py.pop (kw_niters kw) 60)
    (Py.pop (kw_fps kw) 30)
    None None [].

(** [parse_kwargs(self, **kwargs)].  Line 55 calls [replace] and drops
    what it returns. *)
Definition parse_kwargs (kw : kwargs) : M State unit :=
  modify (with_self (fun s =>
    let save_fld' := Py.pop (kw_save_fld kw) (save_fld s) in
    let save_name' := Py.pop (kw_save_name kw) (save_name s) in
    let video_format' := Py.pop (kw_video_format kw) (video_format s) in
    let _ := Py.replace "." "" video_format' in
    let duration' := Py.pop (kw_duration kw) None in
    let niters' := Py.int (Py.pop (kw_niters kw) (niters s)) in
    let fps' := Py.int (Py.pop (kw_fps kw) (fps s)) in
    mkVideoMaker save_fld' save_name' video_format' duration' niters' fps'
      (Some (OsPath.join save_fld' (save_name' +:+ "." +:+ video_format')))
      (tmp_dir s) (frames s))).

(** [initialize_video_creation(self)]. *)
Definition initialize_video_creation : M State unit :=
  let! name := lift_os Os.TemporaryDirectory in
  run! modify (with_self (set_tmp_dir (Some name))) in
  modify (with_self (set_frames [])).

(** [add_frame(self)]. *)
Definition add_frame : M State unit :=
  let! st := get in
  match tmp_dir (self st) with
  | None => raise AttributeError
  | Some name =>
      let frame_path :=
        OsPath.join name (Py.str (List.length (frames (self st))) +:+ ".png") in
      run! Vtk.screenshot frame_path in
      modify (with_self (fun s => set_frames (frames s ++ [frame_path]) s))
  end.

(** The body of the [for] loop of [make_frames], run [n] times. *)
Fixpoint frames_loop (azimuth elevation roll : Z) (n : nat) : M State unit :=
  match n with
  | O => ret tt
  | S n' =>
      run! Vtk.render in
      run! Vtk.camera (Elevation elevation) in
      run! Vtk.camera (Azimuth azimuth) in
      run! Vtk.camera (Roll roll) in
      run! add_frame in
      frames_loop azimuth elevation roll n'
  end.

(** [make_frames(self, azimuth, elevation, roll)]: [range(self.niters)]
    has [max(niters, 0)] elements. *)
Definition make_frames (azimuth elevation roll : Z) : M State unit :=
  run! lift_os (Os.print NCreatingFrames) in
  let! st := get in
  frames_loop azimuth elevation roll (Z.to_nat (niters (self st))).

(** [close(self)]: [len(frames) / float(duration)] raises on a zero
    duration; [np.floor] of the quotient of two integers is floor division. *)
Definition close : M State unit :=
  let! st := get in
  run!
    match duration (self st) with
    | Some d =>
        if bool_decide (d = 0) then raise ZeroDivisionError
        else
          let f := Z.of_nat (List.length (frames (self st))) / d in
          run! modify (with_self (set_fps f)) in
          lift_os (Os.print (NRecalculatedFps f))
    | None => modify (with_self (fun s => set_fps (Py.int (fps s)) s))
    end in
  run! lift_os (Os.print NSavingToFile) in
  let! st := get in
  match tmp_dir (self st), complete_save_path (self st) with
  | Some name, Some path =>
      let! cap := lift_os (VideoUtils.get_cap_from_images_folder name) in
      let! _ := lift_os (VideoUtils.save_videocap_to_video cap path
                           (video_format (self st)) (fps (self st))) in
      run! lift_os (Os.cleanup name) in
      lift_os (Os.print NCompleted)
  | _, _ => raise AttributeError
  end.

(** The [while yn.lower() != "y"] loop of [make_video]; [pending] is the
    input still to come.  [true]: go on with the video; [false]: the
    [return] of line 137. *)
Fixpoint overwrite_loop (pending : list string) : M OS bool :=
  match pending with
  | [] => run! Os.input in raise EOFError
  | _ :: rest =>
      let! yn := Os.input in
      if bool_decide (Py.lower yn = "n") then
        run! Os.print NExiting in
        ret false
      else if bool_decide (Py.lower yn = "y") then ret true
      else overwrite_loop rest
  end.

(** [x is not None] for an attribute that holds a value or [None]. *)
Definition is_not_None {A} (x : option A) : bool :=
  match x with
  | Some _ => true
  | None => false
  end.

(** [x is not None] for an attribute that holds an [int]: [parse_kwargs]
    stores [int(...)] in [self.fps], so the test cannot fail. *)
Definition int_is_not_None (x : Z) : bool := true.

(** [make_video(self, azimuth, elevation, roll, **kwargs)]. *)
Definition make_video (azimuth elevation roll : Z) (kw : kwargs)
  : M State unit :=
  run! parse_kwargs kw in
  run! initialize_video_creation in
  let! curdir := lift_os Os.getcwd in
  let! st := get in
  run! lift_os (Os.chdir (save_fld (self st))) in
  run! lift_os (Os.print NSavingIn) in
  match complete_save_path (self st) with
  | None => raise AttributeError
  | Some path =>
      let! present := lift_os (Os.isfile path) in
      let! go_on :=
        if present then
          run! lift_os (Os.print NExistsAlready) in
          fun st' => lift_os (overwrite_loop (stdin (os st'))) st'
        else ret true in
      if negb go_on then ret tt
      else
        if negb (Py.contains "mp4" (video_format (self st)))
           && negb (Py.contains "avi" (video_format (self st)))
        then raise (ValueError "Currently only .mp4 video format is supported")
        else
          run!
            (if is_not_None (duration (self st))
                && int_is_not_None (fps (self st))
             then lift_os (Os.print NFpsIgnored)
             else ret tt) in
          run! Vtk.render in
          run! make_frames azimuth elevation roll in
          close
  end.

End BasicVideoMaker.

(** ** Reference notions used by the statements *)

(** The first decisive answer in the lines typed at the overwrite prompt:
    [Some true] for a yes, [Some false] for a no, [None] when the input ends
    before either. *)
Fixpoint first_answer (lines : list string) : option bool :=
  match lines with
  | [] => None
  | yn :: rest =>
      if bool_decide (Py.lower yn = "n") then Some false
      else if bool_decide (Py.lower yn = "y") then Some true
      else first_answer rest
  end.

(** The configuration [make_video] works with: [self] after [parse_kwargs]. *)
Definition configured (kw : kwargs) (st : State) : VideoMaker :=
  self (BasicVideoMaker.parse_kwargs kw st).2.

(** The folder [make_video] changes to, as a resolved path. *)
Definition target_folder (kw : kwargs) (st : State) : string :=
  OsPath.resolve (cwd (os st)) (save_fld (configured kw st)).

(** The file [make_video] tests and writes, as a resolved path: the
    configured path seen from the target folder. *)
Definition target_file (kw : kwargs) (st : State) : string :=
  OsPath.resolve (target_folder kw st)
    (OsPath.join (save_fld (configured kw st))
       (save_name (configured kw st) +:+ "." +:+ video_format (configured kw st))).

(** The name [tempfile] gives the buffer directory of this build. *)
Definition tmp_name (st : State) : string :=
  "/tmp/tmp" +:+ pretty (tmp_seq (os st)).

(** The directories there are once the buffer directory is made. *)
Definition dirs_during (st : State) : gset string :=
  {[tmp_name st]} ∪ dirs (os st).

(** The build gets as far as the check of the container format: the folder
    can be entered, and the target file is absent or its overwrite is
    accepted. *)
Definition reaches_validation (kw : kwargs) (st : State) : bool :=
  bool_decide (target_folder kw st ∈ dirs_during st)
  && (bool_decide (files (os st) !! target_file kw st = None)
      || bool_decide (first_answer (stdin (os st)) = Some true)).

(** The message of the configuration error of [make_video]. *)
Definition format_error : exn :=
  ValueError "Currently only .mp4 video format is supported".

(** The codec [open_cvwriter] picks for a container tag. *)
Definition codec_of (format : string) (o : OS) : outcome Z :=
  match VideoUtils.open_cvwriter "out" 4 4 30 format true o with
  | (Returned wr, _) => Returned (Cv2.wr_fourcc wr)
  | (Raised e, _) => Raised e
  end.

Definition MJPG : Z := Cv2.VideoWriter_fourcc "M" "J" "P" "G".
Definition mp4v : Z := Cv2.VideoWriter_fourcc "m" "p" "4" "v".

(** The state after the first two calls of [make_video]. *)
Definition st_setup (kw : kwargs) (st : State) : State :=
  (bind (BasicVideoMaker.parse_kwargs kw)
     (fun _ => BasicVideoMaker.initialize_video_creation) st).2.

(** The state once [make_video] has entered the target folder and said so. *)
Definition st_entered (kw : kwargs) (st : State) : State :=
  with_os (fun o =>
    Os.set_stdout (stdout o ++ [NSavingIn]) (Os.set_cwd (target_folder kw st) o))
    (st_setup kw st).

(** The test of line 139 on a container tag. *)
Definition rejected_format (fmt : string) : bool :=
  negb (Py.contains "mp4" fmt) && negb (Py.contains "avi" fmt).

(** What [make_video] does after the check of the container format. *)
Definition build_body (azimuth elevation roll : Z) : M State unit :=
  let! st := get in
  run!
    (if BasicVideoMaker.is_not_None (duration (self st))
        && BasicVideoMaker.int_is_not_None (fps (self st))
     then lift_os (Os.print NFpsIgnored)
     else ret tt) in
  run! Vtk.render in
  run! BasicVideoMaker.make_frames azimuth elevation roll in
  BasicVideoMaker.close.
Arguments build_body : simpl never.

(** A command never raises the exception [e]. *)
Definition never_raises {S A} (e : exn) (c : M S A) : Prop :=
  forall s e' s', c s = (Raised e', s') -> e' <> e.

(** A command leaves the observation [f] of the state as it was, whether it
    returns or raises. *)
Definition keeps {S A X} (f : S -> X) (c : M S A) : Prop :=
  forall s, f (c s).2 = f s.

(** A video file with the frames [l] added at its end. *)
Definition add_frames (l : list Image) (v : Video) : Video :=
  mkVideo (v_fourcc v) (v_fps v) (v_w v) (v_h v) (v_iscolor v) (v_frames v ++ l).

(** Sample worlds. *)
Module Sample.

Definition scene0 : Scene := mkScene "/videos" 640 480 [] 0.

Definition os0 : OS :=
  mkOS "/home" {["/home"; "/videos"; "/tmp"]} ∅ 0 [] [].

(** A maker built with the defaults, in a world without files. *)
Definition st0 : State :=
  mkState (BasicVideoMaker.init scene0 "20200101_120000" no_kwargs) scene0 os0.

Definition old_video : Video := mkVideo mp4v 30 640 480 true [].

(** The same world with an old video at [path] and [lines] typed. *)
Definition st_existing (path : string) (lines : list string) : State :=
  mkState (self st0) scene0
    (mkOS "/home" {["/home"; "/videos"; "/tmp"]}
       {[path := FVideo old_video]} 0 lines []).

Definition kw_name : kwargs :=
  mkKwargs None (Some "v") None None None None.

Definition kw_format (fmt : string) : kwargs :=
  mkKwargs None (Some "v") (Some fmt) None None None.

Definition kw_duration_only : kwargs :=
  mkKwargs None (Some "v") None (Some (Some 2)) (Some 4) None.

Definition kw_fps_only : kwargs :=
  mkKwargs None (Some "v") None None (Some 4) (Some 25).

Definition frame0 : Image := mkImage 640 480 [].
Definition narrow : Image := mkImage 3 480 [].

(** Captures whose first frame is 640 and 3 columns wide. *)
Definition cap_wide : Cv2.Cap := Cv2.mkCap [frame0; frame0] 0 1 false.
Definition cap_narrow : Cv2.Cap := Cv2.mkCap [narrow] 0 1 false.


(** A maker whose frames are captured and wait for [close]. *)
Definition st_filmed (kw : kwargs) : State :=
  (bind (BasicVideoMaker.parse_kwargs kw)
     (fun _ => bind BasicVideoMaker.initialize_video_creation
        (fun _ => BasicVideoMaker.make_frames 1 2 3)) st0).2.

(** A maker ready for the frame loop: buffer made, no frame yet. *)
Definition st_ready : State :=
  (bind (BasicVideoMaker.parse_kwargs kw_fps_only)
     (fun _ => BasicVideoMaker.initialize_video_creation) st0).2.

End Sample.


(** ** Further notions used by the statements *)

(** A decimal digit. *)
Definition is_digit (c : ascii) : bool :=
  let n := nat_of_ascii c in ((48 <=? n) && (n <=? 57))%nat.

Fixpoint all_digits (s : string) : bool :=
  match s with
  | EmptyString => true
  | String c t => is_digit c && all_digits t
  end.

(** The path [add_frame] gives frame number [i] in the directory [name]. *)
Definition frame_path (name : string) (i : nat) : string :=
  OsPath.join name (Py.str i +:+ ".png").

(** The camera moves of one round of the frame loop, and of [k] rounds. *)
Definition round (azimuth elevation roll : Z) : list cam_op :=
  [Elevation elevation; Azimuth azimuth; Roll roll].

Fixpoint rounds (azimuth elevation roll : Z) (k : nat) : list cam_op :=
  match k with
  | O => []
  | S k' => round azimuth elevation roll ++ rounds azimuth elevation roll k'
  end.

(** The screenshot taken in round [k] (from 0) of a loop started on the
    scene [sc]: the window after [k + 1] rounds of moves. *)
Definition shot (sc : Scene) (azimuth elevation roll : Z) (k : nat) : Image :=
  mkImage (win_w sc) (win_h sc)
    (cam_log sc ++ rounds azimuth elevation roll (S k)).

(** A directory name [tempfile] can give: absolute, no trailing separator. *)
Definition plain_dir (name : string) : Prop :=
  Py.startswith "/" name = true /\ Py.endswith_char "/" name = false.

(** The scene after [n] rounds of the frame loop. *)
Definition scene_after (sc : Scene) (azimuth elevation roll : Z) (n : nat)
  : Scene :=
  mkScene (output_videos sc) (win_w sc) (win_h sc)
    (cam_log sc ++ rounds azimuth elevation roll n) (n_render sc + n).


(** How many times the warning that the frame rate is ignored was printed. *)
Definition fps_warnings (o : OS) : nat :=
  List.length (List.filter (fun n => bool_decide (n = NFpsIgnored)) (stdout o)).

(** How many times an existing video file was announced (line 131). *)
Definition exists_notices (o : OS) : nat :=
  List.length (List.filter (fun n => bool_decide (n = NExistsAlready)) (stdout o)).

(** A world in which the maker is asked to save in the relative folder
    [out], which exists under the working directory [/home] and already
    holds a video [v.mp4]. *)
Definition st_relative : State :=
  mkState (self Sample.st0) Sample.scene0
    (mkOS "/home" {["/home"; "/home/out"; "/tmp"]}
       {["/home/out/v.mp4" := FVideo Sample.old_video]} 0 [] []).

Definition kw_relative : kwargs :=
  mkKwargs (Some "out") (Some "v") None None (Some 2) None.
(** * Properties *)

(** ** Configure: [parse_kwargs] *)

Lemma parse_kwargs_returns kw st :
  BasicVideoMaker.parse_kwargs kw st
  = (Returned tt, (BasicVideoMaker.parse_kwargs kw st).2).
Proof. reflexivity. Qed.

(** The container tag is stored exactly as given: nothing is stripped. *)
Lemma parse_kwargs_format_verbatim kw st :
  video_format (configured kw st)
  = Py.pop (kw_video_format kw) (video_format (self st)).
Proof. reflexivity. Qed.

Lemma parse_kwargs_path kw st :
  complete_save_path (configured kw st)
  = Some (OsPath.join (save_fld (configured kw st))
            (save_name (configured kw st) +:+ "."
               +:+ video_format (configured kw st))).
Proof. reflexivity. Qed.

(** C4, evaluated on the code: with the container tag [.mp4] the stored tag
    still is [.mp4], leading separator included, and the computed output
    path ends in [..mp4]; the stripped tag [mp4] and the path [/videos/v.mp4]
    that the claim promises are not what the code stores. *)
Theorem C4_leading_separator_kept :
  let cfg := configured (Sample.kw_format ".mp4") Sample.st0 in
  video_format cfg = ".mp4"
  /\ complete_save_path cfg = Some "/videos/v..mp4"
  /\ video_format cfg <> "mp4"
  /\ complete_save_path cfg <> Some "/videos/v.mp4".
Proof. repeat split; try reflexivity; discriminate. Qed.




(** ** Video I/O utilities *)

Section VideoUtilsFacts.

Import Cv2 VideoUtils.

Lemma add_frames_nil v : add_frames [] v = v.
Proof. destruct v; unfold add_frames; cbn. by rewrite app_nil_r. Qed.

(** The copy loop appends the unread frames, in order, to the file of the
    writer and touches nothing else. *)
Lemma write_frames_appends (l : list Image) : forall wr o v,
  files o !! wr_path wr = Some (FVideo v) ->
  write_frames wr l o
  = (Returned tt,
     Os.set_files (<[wr_path wr := FVideo (add_frames l v)]> (files o)) o).
Proof.
  induction l as [|f l IH]; intros wr o v Hv; cbn.
  - rewrite add_frames_nil, insert_id by done. by destruct o.
  - unfold bind, write, modify.
    rewrite (IH wr _ (add_frames [f] v)); cbn.
    + rewrite insert_alter_eq. unfold add_frames; cbn.
      by rewrite <- app_assoc.
    + rewrite lookup_alter_eq, Hv. reflexivity.
Qed.

Lemma open_cvwriter_returns filepath w h framerate format iscolor o :
  open_cvwriter filepath w h framerate format iscolor o
  = let fourcc := if Py.contains "avi" format then MJPG else mp4v in
    let p := OsPath.resolve (cwd o) filepath in
    (Returned (mkWriter p fourcc framerate w h iscolor),
     Os.set_files
       (<[p := FVideo (mkVideo fourcc framerate w h iscolor [])]> (files o)) o).
Proof. unfold open_cvwriter, try_except, VideoWriter. by destruct (Py.contains _ _). Qed.

Lemma codecs_differ : MJPG <> mp4v.
Proof. by vm_compute. Qed.

End VideoUtilsFacts.

(** C9 as stated fails: a tag outside the two recognised ones, [mov], gets
    the very codec of [mp4]; there is no third codec. *)
Lemma C9_no_third_codec :
  ~ (codec_of "mp4" Sample.os0 <> codec_of "avi" Sample.os0
     /\ codec_of "mov" Sample.os0 <> codec_of "mp4" Sample.os0
     /\ codec_of "mov" Sample.os0 <> codec_of "avi" Sample.os0).
Proof. intros (_ & Hmov & _). apply Hmov. reflexivity. Qed.

(** C9, amended: [open_cvwriter] knows two codecs.  A tag that contains
    [avi] gets MJPG; every other tag, [mp4] and any unrecognised one alike,
    gets mp4v; the two codecs differ. *)
Theorem C9_two_codecs filepath w h framerate format iscolor o :
  exists wr o',
    VideoUtils.open_cvwriter filepath w h framerate format iscolor o
    = (Returned wr, o')
    /\ Cv2.wr_fourcc wr = (if Py.contains "avi" format then MJPG else mp4v)
    /\ MJPG <> mp4v.
Proof.
  rewrite open_cvwriter_returns. cbn.
  eexists _, _. split; [reflexivity|].
  split; [reflexivity | apply codecs_differ].
Qed.



(** ** Generic facts on commands *)

Section CommandFacts.

Context {S : Type}.

Lemma never_raises_ret {A} e (a : A) : never_raises (S:=S) e (ret a).
Proof. intros s e' s' H; inversion H. Qed.

Lemma never_raises_get e : never_raises (S:=S) e get.
Proof. intros s e' s' H; inversion H. Qed.

Lemma never_raises_modify e (f : S -> S) : never_raises e (modify f).
Proof. intros s e' s' H; inversion H. Qed.

Lemma never_raises_raise {A} e e0 : e0 <> e -> never_raises (S:=S) (A:=A) e (raise e0).
Proof. intros Hne s e' s' H; inversion H; subst; exact Hne. Qed.

Lemma never_raises_bind {A B} e (c : M S A) (k : A -> M S B) :
  never_raises e c -> (forall a, never_raises e (k a)) ->
  never_raises e (bind c k).
Proof.
  intros Hc Hk s e' s'. unfold bind.
  destruct (c s) as [[a|e0] s1] eqn:Hcs.
  - apply Hk.
  - intros [= <- <-]. eapply Hc, Hcs.
Qed.

Lemma never_raises_try_except {A} e (c : M S A) (h : exn -> M S A) :
  (forall e0, never_raises e (h e0)) -> never_raises e (try_except c h).
Proof.
  intros Hh s e' s'. unfold try_except.
  destruct (c s) as [[a|e0] s1]; [discriminate | apply Hh].
Qed.

Lemma keeps_ret {A X} (f : S -> X) (a : A) : keeps f (ret a).
Proof. by intros s. Qed.

Lemma keeps_raise {A X} (f : S -> X) e : keeps (A:=A) f (raise e).
Proof. by intros s. Qed.

Lemma keeps_get {X} (f : S -> X) : keeps f get.
Proof. by intros s. Qed.

Lemma keeps_modify {X} (f : S -> X) (g : S -> S) :
  (forall s, f (g s) = f s) -> keeps f (modify g).
Proof. intros H s; apply H. Qed.

Lemma keeps_bind {A B X} (f : S -> X) (c : M S A) (k : A -> M S B) :
  keeps f c -> (forall a, keeps f (k a)) -> keeps f (bind c k).
Proof.
  intros Hc Hk s. unfold bind. specialize (Hc s).
  destruct (c s) as [[a|e0] s1]; cbn in *; [|done].
  by rewrite Hk.
Qed.

Lemma keeps_try_except {A X} (f : S -> X) (c : M S A) (h : exn -> M S A) :
  keeps f c -> (forall e, keeps f (h e)) -> keeps f (try_except c h).
Proof.
  intros Hc Hh s. unfold try_except. specialize (Hc s).
  destruct (c s) as [[a|e0] s1]; cbn in *; [done|].
  by rewrite Hh.
Qed.

End CommandFacts.

Lemma never_raises_lift_os {A} e (c : M OS A) :
  never_raises e c -> never_raises e (lift_os c).
Proof.
  intros Hc s e' s'. unfold lift_os.
  destruct (c (os s)) as [[a|e0] o] eqn:Hco; [discriminate|].
  intros [= <- <-]. eapply Hc, Hco.
Qed.

Lemma keeps_lift_os {A X} (f : OS -> X) (c : M OS A) :
  keeps f c -> keeps (fun st => f (os st)) (lift_os c).
Proof.
  intros Hc s. unfold lift_os. specialize (Hc (os s)).
  by destruct (c (os s)) as [r o].
Qed.


Lemma lift_os_scene {A} (c : M OS A) st : scene (lift_os c st).2 = scene st.
Proof. unfold lift_os. by destruct (c (os st)). Qed.

Ltac frame_step :=
  first
    [ apply keeps_ret | apply keeps_raise | apply keeps_get
    | apply keeps_bind; [|intros ?]
    | apply keeps_try_except; [|intros ?]
    | apply keeps_modify; intros ?; reflexivity
    | apply never_raises_ret | apply never_raises_get
    | apply never_raises_modify
    | apply never_raises_raise; discriminate
    | apply never_raises_bind; [|intros ?]
    | apply never_raises_try_except; intros ?
    | apply never_raises_lift_os
    | match goal with
      | |- keeps _ (if ?b then _ else _) => destruct b
      | |- never_raises _ (if ?b then _ else _) => destruct b
      | |- keeps _ (match ?x with _ => _ end) => destruct x
      | |- never_raises _ (match ?x with _ => _ end) => destruct x
      end ].

Ltac frame := repeat frame_step.

(** ** What the primitives raise and what they leave alone *)

















(** ** Build: the shape of a run of [make_video] *)


Lemma st_setup_scene kw st : scene (st_setup kw st) = scene st.
Proof. reflexivity. Qed.

Lemma st_setup_files kw st : files (os (st_setup kw st)) = files (os st).
Proof. reflexivity. Qed.

Lemma st_setup_dirs kw st : dirs (os (st_setup kw st)) = dirs_during st.
Proof. reflexivity. Qed.

Lemma st_setup_cwd kw st : cwd (os (st_setup kw st)) = cwd (os st).
Proof. reflexivity. Qed.

Lemma st_setup_stdin kw st : stdin (os (st_setup kw st)) = stdin (os st).
Proof. reflexivity. Qed.

(** The state in which the overwrite prompt ends, and its answer. *)
Lemma make_video_unfold az el ro kw st :
  BasicVideoMaker.make_video az el ro kw st =
  if bool_decide (target_folder kw st ∈ dirs_during st) then
    let '(go, s3) :=
      match files (os st) !! target_file kw st with
      | Some _ =>
          lift_os (BasicVideoMaker.overwrite_loop (stdin (os st)))
            (with_os (fun o => Os.set_stdout (stdout o ++ [NExistsAlready]) o)
               (st_entered kw st))
      | None => (Returned true, st_entered kw st)
      end in
    match go with
    | Raised e => (Raised e, s3)
    | Returned false => (Returned tt, s3)
    | Returned true =>
        if rejected_format (video_format (configured kw st))
        then (Raised format_error, s3)
        else build_body az el ro s3
    end
  else (Raised FileNotFoundError, st_setup kw st).
Proof.
  unfold BasicVideoMaker.make_video, BasicVideoMaker.initialize_video_creation.
  unfold bind, lift_os, get, modify, Os.getcwd, Os.chdir, Os.print, modify,
    Os.isfile, Os.TemporaryDirectory; cbn.
  change (OsPath.resolve (cwd (os st)) (Py.pop (kw_save_fld kw) (save_fld (self st))))
    with (target_folder kw st).
  change ({["/tmp/tmp" +:+ pretty (tmp_seq (os st))]} ∪ dirs (os st))
    with (dirs_during st).
  case_bool_decide as Hd; cbn; [|reflexivity].
  change (OsPath.resolve (target_folder kw st) _) with (target_file kw st).
  destruct (files (os st) !! target_file kw st) as [x|] eqn:Hf; cbn.
  - destruct (BasicVideoMaker.overwrite_loop _ _) as [[[]|e] o3]; cbn; try reflexivity.
    unfold rejected_format, configured; cbn. destruct (_ && _); reflexivity.
  - unfold rejected_format, configured; cbn. destruct (_ && _); reflexivity.
Qed.

(** The overwrite prompt ends as the first decisive answer says, and it
    touches nothing but the terminal. *)
Lemma overwrite_loop_first_answer lines : forall o,
  stdin o = lines ->
  exists o',
    BasicVideoMaker.overwrite_loop lines o
    = (match first_answer lines with
       | Some b => Returned b
       | None => Raised EOFError
       end, o')
    /\ cwd o' = cwd o /\ dirs o' = dirs o /\ files o' = files o.
Proof.
  induction lines as [|yn rest IH]; intros o Hin; cbn.
  - unfold bind, Os.input. rewrite Hin. eexists; split; [reflexivity|]. by cbn.
  - unfold bind at 1. unfold Os.input. rewrite Hin.
    case_bool_decide.
    + eexists; split; [reflexivity|]. by cbn.
    + case_bool_decide.
      * eexists; split; [reflexivity|]. by cbn.
      * destruct (IH (Os.set_stdin rest (Os.set_stdout (stdout o ++ [NPrompt]) o)))
          as (o' & -> & ?); [done|].
        eexists; split; [reflexivity|]. by cbn in *.
Qed.

(** The state in which [make_video] stands when the prompt is over. *)
Lemma prompt_state kw st :
  exists s3,
    lift_os (BasicVideoMaker.overwrite_loop (stdin (os st)))
      (with_os (fun o => Os.set_stdout (stdout o ++ [NExistsAlready]) o)
         (st_entered kw st))
    = (match first_answer (stdin (os st)) with
       | Some b => Returned b
       | None => Raised EOFError
       end, s3)
    /\ self s3 = self (st_setup kw st)
    /\ scene s3 = scene st
    /\ files (os s3) = files (os st)
    /\ dirs (os s3) = dirs_during st
    /\ cwd (os s3) = target_folder kw st.
Proof.
  unfold lift_os.
  destruct (overwrite_loop_first_answer (stdin (os st))
              (os (with_os (fun o => Os.set_stdout (stdout o ++ [NExistsAlready]) o)
                     (st_entered kw st))) eq_refl)
    as (o' & -> & Hc & Hd & Hf).
  eexists; split; [reflexivity|]. cbn in *. by rewrite Hc, Hd, Hf.
Qed.

(** ** Build: the working directory *)

Lemma keeps_cwd_write_frames wr l : keeps cwd (VideoUtils.write_frames wr l).
Proof.
  induction l as [|x l IH]; cbn; [apply keeps_ret|].
  apply keeps_bind; [by apply keeps_modify | intros; apply IH].
Qed.

Lemma keeps_cwd_listdir p : keeps cwd (Os.listdir p).
Proof. intros o. unfold Os.listdir. by case_bool_decide. Qed.

Ltac keep_cwd_leaf :=
  first
    [ apply (keeps_lift_os cwd)
    | apply keeps_cwd_write_frames
    | apply keeps_cwd_listdir
    | (intros ?; reflexivity) ].

Lemma keeps_cwd_get_cap_from_images_folder folder :
  keeps cwd (VideoUtils.get_cap_from_images_folder folder).
Proof.
  unfold VideoUtils.get_cap_from_images_folder.
  repeat first [keep_cwd_leaf | frame_step].
Qed.

Lemma keeps_cwd_save_videocap_to_video cap savepath fmt fps0 :
  keeps cwd (VideoUtils.save_videocap_to_video cap savepath fmt fps0).
Proof.
  unfold VideoUtils.save_videocap_to_video, VideoUtils.get_video_params,
    VideoUtils.open_cvwriter.
  repeat first [keep_cwd_leaf | frame_step].
Qed.

Lemma keeps_cwd_add_frame :
  keeps (fun st => cwd (os st)) BasicVideoMaker.add_frame.
Proof.
  unfold BasicVideoMaker.add_frame.
  repeat first [keep_cwd_leaf | frame_step].
Qed.

Lemma keeps_cwd_frames_loop az el ro n :
  keeps (fun st => cwd (os st)) (BasicVideoMaker.frames_loop az el ro n).
Proof.
  induction n as [|n IH]; cbn; [apply keeps_ret|].
  repeat first [apply keeps_cwd_add_frame | apply IH | frame_step].
Qed.

Lemma keeps_cwd_close : keeps (fun st => cwd (os st)) BasicVideoMaker.close.
Proof.
  unfold BasicVideoMaker.close.
  repeat first
    [ apply (keeps_lift_os cwd)
    | apply keeps_cwd_get_cap_from_images_folder
    | apply keeps_cwd_save_videocap_to_video
    | frame_step
    | (intros ?; reflexivity) ].
Qed.

Lemma keeps_cwd_build_body az el ro :
  keeps (fun st => cwd (os st)) (build_body az el ro).
Proof.
  unfold build_body, BasicVideoMaker.make_frames.
  repeat first
    [ apply keeps_cwd_frames_loop | apply keeps_cwd_close
    | apply (keeps_lift_os cwd)
    | frame_step
    | (intros ?; reflexivity) ].
Qed.

(** Wherever [make_video] ends, the working directory is the target folder
    as soon as that folder could be entered; nothing goes back. *)
Lemma make_video_cwd az el ro kw st :
  cwd (os (BasicVideoMaker.make_video az el ro kw st).2)
  = if bool_decide (target_folder kw st ∈ dirs_during st)
    then target_folder kw st
    else cwd (os st).
Proof.
  rewrite make_video_unfold.
  case_bool_decide; [|reflexivity].
  destruct (files (os st) !! target_file kw st).
  - destruct (prompt_state kw st) as (s3 & -> & _ & _ & _ & _ & Hc).
    destruct (first_answer _) as [[]|]; try exact Hc.
    destruct (rejected_format _); [exact Hc|].
    by rewrite (keeps_cwd_build_body az el ro s3).
  - destruct (rejected_format _); [reflexivity|].
    by rewrite (keeps_cwd_build_body az el ro (st_entered kw st)).
Qed.

(** C1, evaluated on the code: [make_video] saves the working directory in
    [curdir] and never goes back to it.  Started in [/home] with the output
    folder [/videos], it ends in [/videos] when the video is built, when the
    overwrite is declined and when the container format is refused; the
    claim says it ends in [/home]. *)
Theorem C1_cwd_not_restored :
  cwd (os Sample.st0) = "/home"
  /\ (let r := BasicVideoMaker.make_video 1 0 0 Sample.kw_fps_only Sample.st0 in
      r.1 = Returned tt /\ cwd (os r.2) = "/videos")
  /\ (let r := BasicVideoMaker.make_video 1 0 0 Sample.kw_name
                 (Sample.st_existing "/videos/v.mp4" ["n"]) in
      r.1 = Returned tt /\ cwd (os r.2) = "/videos")
  /\ (let r := BasicVideoMaker.make_video 1 0 0 (Sample.kw_format "mov")
                 Sample.st0 in
      r.1 = Raised format_error /\ cwd (os r.2) = "/videos").
Proof. by vm_compute. Qed.







(** C8, evaluated on the code: a build given a duration and no frame rate
    still prints the warning that the frame rate will be ignored, because
    [self.fps] always holds an integer; the claim says no warning then. *)
Theorem C8_warning_without_fps :
  let r := BasicVideoMaker.make_video 1 0 0 Sample.kw_duration_only Sample.st0 in
  kw_fps Sample.kw_duration_only = None
  /\ kw_duration Sample.kw_duration_only = Some (Some 2)
  /\ r.1 = Returned tt
  /\ stdout (os r.2)
     = [NSavingIn; NFpsIgnored; NCreatingFrames; NRecalculatedFps 2;
        NSavingToFile; NCompleted].
Proof. by vm_compute. Qed.

(** ** The frame capture loop *)

(** One call of [add_frame]: the view is saved under the next number in the
    buffer directory [name] and its path is appended to the frame list. *)
Lemma add_frame_returns st name :
  tmp_dir (self st) = Some name ->
  BasicVideoMaker.add_frame st
  = (Returned tt,
     let p := OsPath.join name
                (Py.str (List.length (frames (self st))) +:+ ".png") in
     mkState (BasicVideoMaker.set_frames ((frames (self st) ++ [p])%list) (self st))
       (scene st)
       (Os.set_files
          (<[OsPath.resolve (cwd (os st)) p :=
               FImage (mkImage (win_w (scene st)) (win_h (scene st))
                         (cam_log (scene st)))]> (files (os st)))
          (os st))).
Proof.
  intros Hn. unfold BasicVideoMaker.add_frame, bind, get. rewrite Hn. reflexivity.
Qed.




(** ** Assembly: [close] *)

(** Opening the frames as a capture reads the file system and changes
    nothing. *)
Lemma get_cap_from_images_folder_reads folder o :
  (VideoUtils.get_cap_from_images_folder folder o).2 = o.
Proof.
  unfold VideoUtils.get_cap_from_images_folder, bind, Os.isdir, Os.listdir,
    Cv2.VideoCapture, raise, ret; cbn.
  repeat (case_match; cbn; try reflexivity); by simplify_eq.
Qed.






Arguments VideoUtils.get_cap_from_images_folder : simpl never.
Arguments VideoUtils.save_videocap_to_video : simpl never.



(** * Further properties of the video utilities *)

Section CaptureQueries.

Import Cv2 VideoUtils.


(** The closed form of [get_video_params] on an open capture. *)
Lemma get_video_params_cap cap o :
  get_video_params (inr cap) o
  = match cap_frames cap with
    | [] => (Raised AttributeError, o)
    | f :: _ =>
        (Returned
           (mkParams (Z.of_nat (List.length (cap_frames cap))) (im_w f) (im_h f)
              (cap_fps cap) (bool_decide (im_w f = 3)),
            mkCap (cap_frames cap) 0 (cap_fps cap) (cap_released cap)), o)
    end.
Proof.
  unfold get_video_params, bind, ret, get_cap_selected_frame, cap_set_frame,
    read, set_pos, get_FRAME_COUNT, get_FRAME_WIDTH, get_FRAME_HEIGHT, get_FPS,
    Py.int; cbn.
  destruct (cap_frames cap) as [|f l] eqn:Hf; cbn; [reflexivity|].
  do 3 f_equal.
  case_bool_decide as H1; case_bool_decide as H2; congruence.
Qed.


(** When [get_video_params] returns, it reports the number of frames of the
    capture and the size of its first frame, touches nothing outside, and
    hands the capture back rewound to the first frame, whatever the read
    position was. *)
Theorem get_video_params_rewinds cap o pr cap' o' :
  get_video_params (inr cap) o = (Returned (pr, cap'), o') ->
  o' = o
  /\ cap_pos cap' = 0%nat
  /\ cap_frames cap' = cap_frames cap
  /\ p_nframes pr = Z.of_nat (List.length (cap_frames cap))
  /\ p_fps pr = cap_fps cap
  /\ exists f, cap_frames cap !! 0%nat = Some f
               /\ p_width pr = im_w f /\ p_height pr = im_h f.
Proof.
  rewrite get_video_params_cap. destruct (cap_frames cap) as [|f l] eqn:Hf;
    [discriminate|].
  intros [= <- <- <-]. cbn. repeat split; try done. eauto.
Qed.

(** The colour determination of [get_video_params] looks at [shape[1]],
    the number of columns: it says colour exactly when the first frame is 3
    pixels wide, not when it has 3 channels (which every frame read from a
    capture has). *)
Theorem get_video_params_is_color cap o pr cap' o' :
  get_video_params (inr cap) o = (Returned (pr, cap'), o') ->
  exists f,
    cap_frames cap !! 0%nat = Some f
    /\ shape f !! 2%nat = Some 3
    /\ (p_is_color pr = true <-> im_w f = 3).
Proof.
  rewrite get_video_params_cap. destruct (cap_frames cap) as [|f l] eqn:Hf;
    [discriminate|].
  intros [= <- <- <-]. cbn. exists f. repeat split; try done.
  - apply bool_decide_eq_true_1.
  - apply bool_decide_eq_true_2.
Qed.

End CaptureQueries.


Lemma get_video_params_rewinds_witness :
  exists pr c,
    VideoUtils.get_video_params (inr (Cv2.set_pos Sample.cap_wide 2)) Sample.os0
    = (Returned (pr, c), Sample.os0)
    /\ Cv2.cap_pos c = 0%nat /\ VideoUtils.p_nframes pr = 2
    /\ VideoUtils.p_width pr = 640.
Proof.
  eexists _, _. split; [reflexivity|].
  destruct (get_video_params_rewinds (Cv2.set_pos Sample.cap_wide 2) Sample.os0
              _ _ _ eq_refl) as (_ & Hp & _ & Hn & _ & f & Hf & Hw & _).
  split; [exact Hp|]. split; [exact Hn|].
  rewrite Hw. by injection Hf as <-.
Defined.

Lemma get_video_params_is_color_witness :
  (exists f, Cv2.cap_frames Sample.cap_wide !! 0%nat = Some f /\ im_w f <> 3)
  /\ (exists f, Cv2.cap_frames Sample.cap_narrow !! 0%nat = Some f /\ im_w f = 3).
Proof.
  split.
  - destruct (get_video_params_is_color Sample.cap_wide Sample.os0 _ _ _ eq_refl)
      as (f & Hf & _ & Hc).
    exists f. split; [exact Hf|]. intros Hw. apply Hc in Hw. discriminate Hw.
  - destruct (get_video_params_is_color Sample.cap_narrow Sample.os0 _ _ _ eq_refl)
      as (f & Hf & _ & Hc).
    exists f. split; [exact Hf|]. by apply Hc.
Defined.

Section Readers.

Import Cv2 VideoUtils.

(** [get_cap_from_images_folder] refuses a folder that is not a directory
    with its own [ValueError], before anything is opened, and that error
    means nothing else. *)
Theorem get_cap_from_images_folder_missing folder o :
  OsPath.resolve (cwd o) folder ∉ dirs o
  <-> get_cap_from_images_folder folder o
      = (Raised (ValueError ("Folder " +:+ folder +:+ " doesn't exist")), o).
Proof.
  unfold get_cap_from_images_folder, bind, Os.isdir, Os.listdir, VideoCapture,
    raise, ret; cbn.
  case_bool_decide as Hd; cbn; [|done].
  split; [done|]. intros H; exfalso; revert H.
  repeat (rewrite (bool_decide_eq_true_2 _ Hd); cbn).
  case_bool_decide; cbn.
  - intros [= Hmsg]. by apply (inj (String.app folder)) in Hmsg.
  - repeat (case_match; cbn); intros [=].
Qed.

Lemma filter_none {A} (f : A -> bool) (l : list A) :
  (forall x, In x l -> f x = false) -> List.filter f l = [].
Proof.
  induction l as [|a l IH]; intros H; cbn; [reflexivity|].
  rewrite (H a) by (by left). apply IH. intros x Hx. apply H. by right.
Qed.

(** [os.listdir] of a directory with nothing under it lists nothing. *)
Lemma nothing_listed d o :
  (forall p, Os.under d p = true -> files o !! p = None /\ p ∉ dirs o) ->
  List.filter (Os.under d) ((map_to_list (files o)).*1 ++ elements (dirs o)) = [].
Proof.
  intros Hempty. apply filter_none. intros p Hp.
  destruct (Os.under d p) eqn:Hu; [exfalso | done].
  destruct (Hempty p Hu) as [Hf Hnd].
  apply in_app_or in Hp as [Hp|Hp].
  - apply list_elem_of_In, list_elem_of_fmap in Hp as ([p' x] & -> & Hin).
    apply elem_of_map_to_list in Hin. cbn in Hf. congruence.
  - apply list_elem_of_In, elem_of_elements in Hp. done.
Qed.

(** A directory with nothing under it is refused as empty. *)
Theorem get_cap_from_images_folder_empty folder o :
  OsPath.resolve (cwd o) folder ∈ dirs o ->
  (forall p, Os.under (OsPath.resolve (cwd o) folder) p = true ->
             files o !! p = None /\ p ∉ dirs o) ->
  get_cap_from_images_folder folder o
  = (Raised (ValueError ("Folder " +:+ folder +:+ " is empty")), o).
Proof.
  intros Hd Hempty.
  unfold get_cap_from_images_folder, bind, Os.isdir, Os.listdir, raise; cbn.
  repeat (rewrite (bool_decide_eq_true_2 _ Hd); cbn).
  case_bool_decide as Hnil; [reflexivity|]. exfalso. apply Hnil.
  by apply nothing_listed.
Qed.

(** A capture that [get_cap_from_images_folder] returns is rewound to its
    first frame and has one; the folder is a directory, and the file system
    is as it was. *)
Theorem get_cap_from_images_folder_returns folder o cap o' :
  get_cap_from_images_folder folder o = (Returned cap, o') ->
  o' = o
  /\ OsPath.resolve (cwd o) folder ∈ dirs o
  /\ cap_pos cap = 0%nat
  /\ cap_frames cap <> [].
Proof.
  intros H.
  pose proof (get_cap_from_images_folder_reads folder o) as Hread.
  rewrite H in Hread. cbn in Hread. split; [exact Hread|].
  revert H.
  unfold get_cap_from_images_folder, bind, Os.isdir, Os.listdir, VideoCapture,
    raise, ret; cbn.
  case_bool_decide as Hd; cbn; [|discriminate].
  repeat (rewrite (bool_decide_eq_true_2 _ Hd); cbn).
  case_bool_decide; cbn; [discriminate|].
  unfold read, cap_set_frame, set_pos.
  match goal with |- context [cap_frames ?c !! cap_pos ?c] =>
    destruct (cap_frames c !! cap_pos c) as [f|] eqn:Hf
  end; cbn; [|discriminate].
  intros [= <- _]. cbn. split; [done|]. split; [done|].
  intros Hnil. rewrite Hnil in Hf. discriminate.
Qed.

(** [get_cap_from_file] either returns a capture rewound to its first
    frame, with at least one frame, or raises its [ValueError] for a source
    that gives no frame; the [except] clause around the opening never fires,
    and the file system is not touched. *)
Theorem get_cap_from_file_outcomes videopath o :
  (exists cap,
     get_cap_from_file videopath o = (Returned cap, o)
     /\ cap_pos cap = 0%nat /\ cap_frames cap <> [])
  \/ get_cap_from_file videopath o
     = (Raised (ValueError
                  ("Something went wrong, can't read form video: " +:+ videopath)),
        o).
Proof.
  unfold get_cap_from_file, bind, try_except, VideoCapture, raise, ret; cbn.
  unfold read, cap_set_frame, set_pos.
  match goal with |- context [cap_frames ?c !! cap_pos ?c] =>
    destruct (cap_frames c !! cap_pos c) as [f|] eqn:Hf
  end; cbn; [left | by right].
  eexists. split; [reflexivity|]. cbn. split; [done|].
  intros Hnil. rewrite Hnil in Hf. discriminate.
Qed.



Lemma contains_avi_dot fmt :
  Py.contains "avi" ("." +:+ fmt) = Py.contains "avi" fmt.
Proof. reflexivity. Qed.

(** What [save_videocap_to_video] leaves behind when it returns. *)
Lemma save_videocap_to_video_state cap savepath fmt fps0 o wr o' :
  save_videocap_to_video cap savepath fmt fps0 o = (Returned wr, o') ->
  exists f,
    cap_frames cap !! 0%nat = Some f
    /\ wr = mkWriter (OsPath.resolve (cwd o) savepath)
              (if Py.contains "avi" fmt then MJPG else mp4v)
              fps0 (im_w f) (im_h f) true
    /\ o' = Os.set_files
              (<[OsPath.resolve (cwd o) savepath :=
                   FVideo (mkVideo (if Py.contains "avi" fmt then MJPG else mp4v)
                             fps0 (im_w f) (im_h f) true (cap_frames cap))]>
                 (files o)) o.
Proof.
  unfold save_videocap_to_video, bind.
  unfold get_video_params, bind, ret; cbn.
  unfold get_cap_selected_frame, cap_set_frame, read; cbn.
  destruct (cap_frames cap !! 0%nat) as [f|] eqn:Hf; cbn; [|discriminate].
  erewrite write_frames_appends; cbn; [| by rewrite lookup_insert_eq].
  rewrite insert_insert_eq, drop_0. unfold add_frames; cbn.
  assert (Hc : Py.contains "avi"
                 (if negb (Py.contains "." fmt) then "." +:+ fmt else fmt)
               = Py.contains "avi" fmt)
    by (destruct (negb _); [apply contains_avi_dot | reflexivity]).
  rewrite Hc. intros [= <- <-]. exists f. split; [reflexivity|].
  unfold get_FRAME_WIDTH, get_FRAME_HEIGHT, Py.int; cbn.
  destruct (cap_frames cap) as [|f' l]; [discriminate|].
  injection Hf as ->. by split.
Qed.

(** The codec of the video that [save_videocap_to_video] writes follows
    from the container tag as it was passed: MJPG when it contains [avi],
    mp4v otherwise; the dot the function puts in front of a tag without one
    changes nothing, and the sink has the size of the first frame. *)
Theorem save_videocap_to_video_codec cap savepath fmt fps0 o wr o' :
  save_videocap_to_video cap savepath fmt fps0 o = (Returned wr, o') ->
  wr_fourcc wr = (if Py.contains "avi" fmt then MJPG else mp4v)
  /\ wr_fps wr = fps0
  /\ exists f, cap_frames cap !! 0%nat = Some f
               /\ wr_w wr = im_w f /\ wr_h wr = im_h f.
Proof.
  intros (f & Hf & -> & _)%save_videocap_to_video_state. cbn.
  split; [reflexivity|]. split; [reflexivity|]. by exists f.
Qed.

(** Writing touches one path only: every other file is as it was. *)
Theorem save_videocap_to_video_other_files cap savepath fmt fps0 o wr o' p :
  save_videocap_to_video cap savepath fmt fps0 o = (Returned wr, o') ->
  p <> OsPath.resolve (cwd o) savepath ->
  files o' !! p = files o !! p /\ dirs o' = dirs o /\ cwd o' = cwd o.
Proof.
  intros (f & Hf & _ & ->)%save_videocap_to_video_state Hne. cbn.
  by rewrite lookup_insert_ne.
Qed.



End Readers.

Lemma get_cap_from_images_folder_empty_witness :
  VideoUtils.get_cap_from_images_folder "/tmp" Sample.os0
  = (Raised (ValueError "Folder /tmp is empty"), Sample.os0).
Proof.
  apply (get_cap_from_images_folder_empty "/tmp" Sample.os0).
  - apply (bool_decide_unpack _). by vm_compute.
  - intros p Hp. split; [reflexivity|].
    intros Hin. cbn in Hin.
    rewrite !elem_of_union, !elem_of_singleton in Hin.
    destruct Hin as [[->| ->]| ->]; vm_compute in Hp; discriminate.
Defined.



Lemma save_videocap_to_video_codec_witness :
  exists wr o',
    VideoUtils.save_videocap_to_video Sample.cap_wide "/videos/out.avi" ".avi" 24
      Sample.os0 = (Returned wr, o')
    /\ Cv2.wr_fourcc wr = MJPG /\ Cv2.wr_w wr = 640.
Proof.
  eexists _, _. split; [reflexivity|].
  destruct (save_videocap_to_video_codec Sample.cap_wide "/videos/out.avi" ".avi"
              24 Sample.os0 _ _ eq_refl) as (Hc & _ & f & Hf & Hw & _).
  split; [exact Hc|]. rewrite Hw. by injection Hf as <-.
Defined.

Lemma save_videocap_to_video_other_files_witness :
  exists wr o',
    VideoUtils.save_videocap_to_video Sample.cap_wide "new.mp4" "mp4" 24
      (os (Sample.st_existing "/videos/v.mp4" [])) = (Returned wr, o')
    /\ files o' !! "/videos/v.mp4" = Some (FVideo Sample.old_video).
Proof.
  eexists _, _. split; [reflexivity|].
  by destruct (save_videocap_to_video_other_files Sample.cap_wide "new.mp4" "mp4"
                 24 (os (Sample.st_existing "/videos/v.mp4" [])) _ _
                 "/videos/v.mp4" eq_refl ltac:(discriminate)) as (-> & _).
Defined.

Lemma get_cap_from_images_folder_returns_witness :
  exists cap,
    VideoUtils.get_cap_from_images_folder "/tmp/tmp0"
      (os (Sample.st_filmed Sample.kw_fps_only))
    = (Returned cap, os (Sample.st_filmed Sample.kw_fps_only))
    /\ Cv2.cap_pos cap = 0%nat /\ Cv2.cap_frames cap <> [].
Proof.
  eexists. split; [by vm_compute|].
  destruct (get_cap_from_images_folder_returns "/tmp/tmp0"
              (os (Sample.st_filmed Sample.kw_fps_only)) _ _ ltac:(by vm_compute))
    as (_ & _ & Hp & Hf).
  split; [exact Hp | exact Hf].
Defined.

(** * Further properties of the build *)

(** The overwrite prompt reads lines up to the first one that is a yes or
    a no in either letter case, asking once per line read; lines after it
    stay unread, and a no prints the leaving notice. *)
Theorem overwrite_loop_reads_to_answer junk : forall yn rest o,
  stdin o = (junk ++ yn :: rest)%list ->
  Forall (fun l => Py.lower l <> "n" /\ Py.lower l <> "y") junk ->
  Py.lower yn = "y" \/ Py.lower yn = "n" ->
  BasicVideoMaker.overwrite_loop (stdin o) o
  = (Returned (bool_decide (Py.lower yn = "y")),
     Os.set_stdout
       (stdout o ++ replicate (S (List.length junk)) NPrompt
          ++ (if bool_decide (Py.lower yn = "n") then [NExiting] else []))%list
       (Os.set_stdin rest o)).
Proof.
  induction junk as [|l junk IH]; intros yn rest o Hin Hjunk Hyn; rewrite Hin.
  - cbn. unfold bind at 1. unfold Os.input. rewrite Hin. cbn.
    repeat case_bool_decide; destruct Hyn; try congruence;
      unfold bind, Os.print, modify, ret; cbn; rewrite <- ?app_assoc;
      reflexivity.
  - cbn. unfold bind at 1. unfold Os.input. rewrite Hin. cbn.
    apply Forall_cons in Hjunk as [[Hl1 Hl2] Hjunk].
    rewrite !bool_decide_eq_false_2 by done.
    specialize (IH yn rest
                  (Os.set_stdin (junk ++ yn :: rest)
                     (Os.set_stdout (stdout o ++ [NPrompt]) o))
                  eq_refl Hjunk Hyn).
    cbn in IH. rewrite IH. cbn. f_equal.
    unfold Os.set_stdout, Os.set_stdin; cbn. by rewrite <- app_assoc.
Qed.

Lemma overwrite_loop_reads_to_answer_witness :
  BasicVideoMaker.overwrite_loop ["maybe"; ""; "Y"; "n"]
    (os (Sample.st_existing "/videos/v.mp4" ["maybe"; ""; "Y"; "n"]))
  = (Returned true,
     Os.set_stdout [NPrompt; NPrompt; NPrompt]
       (Os.set_stdin ["n"] (os (Sample.st_existing "/videos/v.mp4" [])))).
Proof.
  refine (overwrite_loop_reads_to_answer ["maybe"; ""] "Y" ["n"]
            (os (Sample.st_existing "/videos/v.mp4" ["maybe"; ""; "Y"; "n"]))
            eq_refl _ _).
  - repeat constructor; discriminate.
  - by left.
Defined.

(** When the input ends before a yes or a no, the prompt was asked once per
    line and once more, and the loop ends in [EOFError]. *)
Theorem overwrite_loop_end_of_input lines : forall o,
  stdin o = lines ->
  Forall (fun l => Py.lower l <> "n" /\ Py.lower l <> "y") lines ->
  BasicVideoMaker.overwrite_loop (stdin o) o
  = (Raised EOFError,
     Os.set_stdout (stdout o ++ replicate (S (List.length lines)) NPrompt)%list
       (Os.set_stdin [] o)).
Proof.
  induction lines as [|l lines IH]; intros o Hin Hall; rewrite Hin.
  - cbn. unfold bind, Os.input. rewrite Hin. cbn.
    f_equal. destruct o; cbn in *. by subst.
  - cbn. unfold bind at 1. unfold Os.input. rewrite Hin. cbn.
    apply Forall_cons in Hall as [[Hl1 Hl2] Hall].
    rewrite !bool_decide_eq_false_2 by done.
    specialize (IH (Os.set_stdin lines (Os.set_stdout (stdout o ++ [NPrompt]) o))
                  eq_refl Hall).
    cbn in IH. rewrite IH. cbn. f_equal.
    unfold Os.set_stdout, Os.set_stdin; cbn. by rewrite <- app_assoc.
Qed.

Lemma overwrite_loop_end_of_input_witness :
  BasicVideoMaker.overwrite_loop ["what"]
    (os (Sample.st_existing "/videos/v.mp4" ["what"]))
  = (Raised EOFError,
     Os.set_stdout [NPrompt; NPrompt] (os (Sample.st_existing "/videos/v.mp4" []))).
Proof.
  refine (overwrite_loop_end_of_input ["what"]
            (os (Sample.st_existing "/videos/v.mp4" ["what"])) eq_refl _).
  repeat constructor; discriminate.
Defined.





(** ** Assembly: edge cases of [close] *)

(** A duration of zero makes [close] raise [ZeroDivisionError] at once:
    the state is untouched, so no video is written and the captured frames
    stay in the buffer directory, which is not removed. *)
Theorem close_zero_duration st :
  duration (self st) = Some 0 ->
  BasicVideoMaker.close st = (Raised ZeroDivisionError, st).
Proof.
  intros Hd. unfold BasicVideoMaker.close, bind, get. by rewrite Hd.
Qed.

Lemma close_zero_duration_witness :
  let st := Sample.st_filmed (mkKwargs None (Some "v") None (Some (Some 0))
                                (Some 2) None) in
  BasicVideoMaker.close st = (Raised ZeroDivisionError, st)
  /\ "/tmp/tmp0" ∈ dirs (os st)
  /\ is_Some (files (os st) !! "/tmp/tmp0/1.png").
Proof.
  split; [by apply close_zero_duration|].
  split; [apply (bool_decide_unpack _); by vm_compute | eexists; by vm_compute].
Defined.

(** ** Strings, paths and decimal numerals *)

Lemma string_app_cons (c : ascii) (a b : string) :
  String c a +:+ b = String c (a +:+ b).
Proof. reflexivity. Qed.

Lemma string_app_nil_l (s : string) : "" +:+ s = s.
Proof. reflexivity. Qed.

Lemma string_app_nil_r (s : string) : s +:+ "" = s.
Proof.
  induction s as [|c s IH]; [done|]. by rewrite string_app_cons, IH.
Qed.

Lemma string_app_assoc (a b c : string) : (a +:+ b) +:+ c = a +:+ b +:+ c.
Proof.
  induction a as [|x a IH]; [done|]. by rewrite !string_app_cons, IH.
Qed.

Lemma string_app_length (a b : string) :
  String.length (a +:+ b) = (String.length a + String.length b)%nat.
Proof.
  induction a as [|x a IH]; [done|]. rewrite string_app_cons. cbn. by rewrite IH.
Qed.

Lemma string_app_inj_r (t a b : string) : a +:+ t = b +:+ t -> a = b.
Proof.
  revert b. induction a as [|x a IH]; intros [|y b] H;
    rewrite ?string_app_cons, ?string_app_nil_l in H.
  - done.
  - apply (f_equal String.length) in H. cbn in H.
    rewrite string_app_length in H. lia.
  - apply (f_equal String.length) in H. cbn in H.
    rewrite string_app_length in H. lia.
  - injection H as -> H. f_equal. by apply IH.
Qed.


Lemma startswith_app_l (p a b : string) :
  Py.startswith p a = true -> Py.startswith p (a +:+ b) = true.
Proof.
  revert a. induction p as [|c p IH]; intros a H; [done|].
  destruct a as [|x a]; [discriminate|]. rewrite string_app_cons. cbn in *.
  apply andb_true_iff in H as [-> H]. cbn. by apply IH.
Qed.

Lemma endswith_char_app (c : ascii) (a b : string) :
  b <> "" -> Py.endswith_char c (a +:+ b) = Py.endswith_char c b.
Proof.
  intros Hb. induction a as [|x a IH]; [done|].
  rewrite string_app_cons. destruct (a +:+ b) as [|y r] eqn:Hab.
  - destruct a; [by rewrite string_app_nil_l in Hab|].
    rewrite string_app_cons in Hab. discriminate.
  - by rewrite <- IH.
Qed.


Lemma is_digit_pretty_N_char x : is_digit (pretty_N_char x) = true.
Proof. unfold pretty_N_char. by repeat case_match. Qed.

Lemma all_digits_pretty_N_go x : forall s,
  all_digits s = true -> all_digits (pretty_N_go x s) = true.
Proof.
  induction (N.lt_wf_0 x) as [x _ IH]; intros s Hs.
  assert (x = 0 \/ 0 < x)%N as [->|Hx] by lia; [by rewrite pretty_N_go_0|].
  rewrite pretty_N_go_step by done. apply IH; [by apply N.div_lt|].
  cbn. by rewrite is_digit_pretty_N_char.
Qed.

Lemma pretty_N_go_nonempty x : forall s, s <> "" -> pretty_N_go x s <> "".
Proof.
  induction (N.lt_wf_0 x) as [x _ IH]; intros s Hs.
  assert (x = 0 \/ 0 < x)%N as [->|Hx] by lia; [by rewrite pretty_N_go_0|].
  rewrite pretty_N_go_step by done. apply IH; [by apply N.div_lt | done].
Qed.

(** [str(i)] of a length is a nonempty string of digits. *)
Lemma str_digits (i : nat) : all_digits (Py.str i) = true /\ Py.str i <> "".
Proof.
  unfold Py.str, pretty, pretty_nat, pretty, pretty_N.
  case_decide as H0; [done|].
  split; [by apply all_digits_pretty_N_go|].
  rewrite pretty_N_go_step by lia. by apply pretty_N_go_nonempty.
Qed.

Lemma str_inj (i j : nat) : Py.str i = Py.str j -> i = j.
Proof. apply (inj pretty). Qed.

Lemma str_head (i : nat) :
  exists c t, Py.str i = String c t /\ is_digit c = true.
Proof.
  destruct (str_digits i) as [Hd Hne].
  destruct (Py.str i) as [|c t]; [done|]. cbn in Hd.
  apply andb_true_iff in Hd as [Hc _]. eauto.
Qed.

Lemma digits_no_trailing_sep (s : string) :
  all_digits s = true -> Py.endswith_char "/" s = false.
Proof.
  induction s as [|c s IH]; cbn; [done|].
  intros [Hc Hs]%andb_true_iff. destruct s as [|c' s'].
  - apply bool_decide_eq_false_2. intros ->. discriminate.
  - by apply IH.
Qed.

(** The names [tempfile] hands out in the model are plain directory names. *)
Lemma tmp_name_plain st : plain_dir (tmp_name st).
Proof.
  split; [reflexivity|]. unfold tmp_name.
  change (pretty (tmp_seq (os st))) with (Py.str (tmp_seq (os st))).
  destruct (str_digits (tmp_seq (os st))) as [Hd Hne].
  rewrite endswith_char_app by done. by apply digits_no_trailing_sep.
Qed.

Section PlainDir.

Context (name : string) (Hname : plain_dir name).

Lemma plain_dir_nonempty : name <> "".
Proof. destruct Hname as [Hs _]. by intros ->. Qed.

Lemma join_plain (b : string) :
  Py.startswith "/" b = false -> OsPath.join name b = name +:+ "/" +:+ b.
Proof.
  intros Hb. unfold OsPath.join, OsPath.sep. rewrite Hb.
  destruct Hname as [_ ->].
  rewrite bool_decide_eq_false_2 by apply plain_dir_nonempty. reflexivity.
Qed.

Lemma resolve_under_plain cwd0 (b : string) :
  OsPath.resolve cwd0 (name +:+ b) = name +:+ b.
Proof.
  unfold OsPath.resolve, OsPath.join, OsPath.sep.
  by rewrite startswith_app_l by apply Hname.
Qed.


Lemma frame_path_plain i : frame_path name i = name +:+ "/" +:+ Py.str i +:+ ".png".
Proof.
  unfold frame_path. apply join_plain.
  destruct (str_head i) as (c & t & -> & Hc). rewrite string_app_cons. cbn.
  rewrite andb_true_r. apply bool_decide_eq_false_2. intros <-. discriminate.
Qed.

Lemma frame_path_inj i j : frame_path name i = frame_path name j -> i = j.
Proof.
  rewrite !frame_path_plain. intros H.
  apply (inj (String.app name)), (inj (String.app "/")) in H.
  apply string_app_inj_r in H. by apply str_inj.
Qed.

Lemma frame_path_resolve cwd0 i :
  OsPath.resolve cwd0 (frame_path name i) = frame_path name i.
Proof. rewrite frame_path_plain. apply resolve_under_plain. Qed.






End PlainDir.

(** ** The frame capture loop, exactly *)

Lemma rounds_snoc az el ro k :
  (round az el ro ++ rounds az el ro k = rounds az el ro (S k))%list.
Proof. reflexivity. Qed.

(** [n] rounds of the loop, from any state whose buffer directory is a
    plain directory name. *)
Lemma frames_loop_exact az el ro n : forall st name,
  tmp_dir (self st) = Some name ->
  plain_dir name ->
  exists st',
    BasicVideoMaker.frames_loop az el ro n st = (Returned tt, st')
    /\ self st'
       = BasicVideoMaker.set_frames
           (frames (self st)
              ++ map (frame_path name) (seq (List.length (frames (self st))) n))%list
           (self st)
    /\ scene st' = scene_after (scene st) az el ro n
    /\ cwd (os st') = cwd (os st)
    /\ dirs (os st') = dirs (os st)
    /\ stdout (os st') = stdout (os st)
    /\ stdin (os st') = stdin (os st)
    /\ (forall i, (i < n)%nat ->
        files (os st') !! frame_path name (List.length (frames (self st)) + i)
        = Some (FImage (shot (scene st) az el ro i)))
    /\ (forall p,
        (forall i, (i < n)%nat ->
                   p <> frame_path name (List.length (frames (self st)) + i)) ->
        files (os st') !! p = files (os st) !! p).
Proof.
  induction n as [|n IH]; intros st name Hn Hplain.
  - exists st. cbn. rewrite app_nil_r.
    split; [reflexivity|]. split; [by destruct (self st)|].
    split; [destruct (scene st); unfold scene_after; cbn;
            by rewrite app_nil_r, Nat.add_0_r|].
    repeat split; try done. intros i Hi. lia.
  - cbn [BasicVideoMaker.frames_loop].
    unfold bind at 1. unfold Vtk.render at 1, modify at 1.
    unfold bind at 1. unfold Vtk.camera at 1, modify at 1.
    unfold bind at 1. unfold Vtk.camera at 1, modify at 1.
    unfold bind at 1. unfold Vtk.camera at 1, modify at 1.
    unfold bind at 1. rewrite (add_frame_returns _ name) by exact Hn.
    cbn zeta.
    match goal with |- context [BasicVideoMaker.frames_loop _ _ _ n ?s] =>
      destruct (IH s name Hn Hplain)
        as (st' & -> & Hself & Hscene & Hcwd & Hdirs & Hout & Hin & Himg & Hoth)
    end.
    cbn in Hself, Hscene, Hcwd, Hdirs, Hout, Hin, Himg, Hoth.
    rewrite length_app in Hself, Himg, Hoth. cbn in Hself, Himg, Hoth.
    rewrite Nat.add_1_r in Hself, Himg, Hoth.
    fold (frame_path name (List.length (frames (self st)))) in Hself, Hoth.
    rewrite (frame_path_resolve name Hplain) in Hoth.
    set (len := List.length (frames (self st))) in *.
    exists st'. split; [reflexivity|].
    split; [rewrite Hself; unfold BasicVideoMaker.set_frames; cbn;
            by rewrite <- app_assoc|].
    split.
    { rewrite Hscene. unfold scene_after; cbn. f_equal; [|lia].
      by rewrite <- !app_assoc. }
    split; [done|]. split; [done|]. split; [done|]. split; [done|].
    split.
    + intros [|i] Hi.
      * rewrite Nat.add_0_r, Hoth.
        -- rewrite lookup_insert_eq. unfold shot; cbn.
           by rewrite <- !app_assoc.
        -- intros j _ Heq. apply (frame_path_inj name Hplain) in Heq. lia.
      * replace (len + S i)%nat with (S len + i)%nat by lia.
        rewrite Himg by lia. unfold shot; cbn. by rewrite <- !app_assoc.
    + intros p Hp. rewrite Hoth.
      * apply lookup_insert_ne. intros <-. apply (Hp 0%nat); [lia|].
        by rewrite Nat.add_0_r.
      * intros i Hi ->. apply (Hp (S i)); [lia|]. f_equal. lia.
Qed.

(** The camera and the renderer in [make_frames]: the loop runs
    [max(niters, 0)] rounds; each round is one render pass followed by
    [Elevation], [Azimuth] and [Roll] with the deltas given, in this order,
    so the moves add up round after round; nothing else of the scene
    changes, and the frame paths are the numbered ones, all different. *)
Theorem make_frames_rounds az el ro st name :
  tmp_dir (self st) = Some name ->
  plain_dir name ->
  frames (self st) = [] ->
  exists st',
    BasicVideoMaker.make_frames az el ro st = (Returned tt, st')
    /\ cam_log (scene st')
       = (cam_log (scene st) ++ rounds az el ro (Z.to_nat (niters (self st))))%list
    /\ n_render (scene st')
       = (n_render (scene st) + Z.to_nat (niters (self st)))%nat
    /\ win_w (scene st') = win_w (scene st)
    /\ win_h (scene st') = win_h (scene st)
    /\ frames (self st')
       = map (frame_path name) (seq 0 (Z.to_nat (niters (self st))))
    /\ NoDup (frames (self st')).
Proof.
  intros Hn Hplain Hf.
  unfold BasicVideoMaker.make_frames, bind, lift_os, get, Os.print, modify. cbn.
  match goal with |- context [BasicVideoMaker.frames_loop _ _ _ _ ?s] =>
    destruct (frames_loop_exact az el ro (Z.to_nat (niters (self st))) s name
                Hn Hplain)
      as (st' & -> & Hself & Hscene & _)
  end.
  cbn in Hself, Hscene. rewrite Hf in Hself. cbn in Hself.
  exists st'. split; [reflexivity|]. rewrite Hscene, Hself. cbn.
  repeat split; try done.
  apply NoDup_fmap_2_strong; [|apply NoDup_seq].
  intros i j _ _. apply (frame_path_inj name Hplain).
Qed.

(** The files of [make_frames]: frame [k] is saved under its own number in
    the buffer directory and shows the window after [k + 1] rounds of
    moves; no screenshot is overwritten by a later one, and no other file
    is touched. *)
Theorem make_frames_files az el ro st name :
  tmp_dir (self st) = Some name ->
  plain_dir name ->
  frames (self st) = [] ->
  exists st',
    BasicVideoMaker.make_frames az el ro st = (Returned tt, st')
    /\ (forall k, (k < Z.to_nat (niters (self st)))%nat ->
        files (os st') !! frame_path name k
        = Some (FImage (shot (scene st) az el ro k)))
    /\ (forall p,
        (forall k, (k < Z.to_nat (niters (self st)))%nat -> p <> frame_path name k) ->
        files (os st') !! p = files (os st) !! p)
    /\ dirs (os st') = dirs (os st)
    /\ cwd (os st') = cwd (os st).
Proof.
  intros Hn Hplain Hf.
  unfold BasicVideoMaker.make_frames, bind, lift_os, get, Os.print, modify. cbn.
  match goal with |- context [BasicVideoMaker.frames_loop _ _ _ _ ?s] =>
    destruct (frames_loop_exact az el ro (Z.to_nat (niters (self st))) s name
                Hn Hplain)
      as (st' & -> & _ & _ & Hcwd & Hdirs & _ & _ & Himg & Hoth)
  end.
  cbn in Hcwd, Hdirs, Himg, Hoth. rewrite Hf in Himg, Hoth. cbn in Himg, Hoth.
  exists st'. by repeat split.
Qed.

(** With a frame count that is zero or negative, [make_frames] only prints
    its notice: no render pass, no camera move, no screenshot. *)
Theorem make_frames_no_rounds az el ro st :
  niters (self st) <= 0 ->
  BasicVideoMaker.make_frames az el ro st
  = (Returned tt,
     with_os (fun o => Os.set_stdout (stdout o ++ [NCreatingFrames]) o) st).
Proof.
  intros Hle.
  unfold BasicVideoMaker.make_frames, bind, lift_os, get, Os.print, modify. cbn.
  replace (Z.to_nat (niters (self st))) with 0%nat by lia. reflexivity.
Qed.

Lemma make_frames_rounds_witness :
  exists st',
    BasicVideoMaker.make_frames 1 2 3 Sample.st_ready = (Returned tt, st')
    /\ cam_log (scene st')
       = [Elevation 2; Azimuth 1; Roll 3; Elevation 2; Azimuth 1; Roll 3;
          Elevation 2; Azimuth 1; Roll 3; Elevation 2; Azimuth 1; Roll 3]
    /\ n_render (scene st') = 4%nat.
Proof.
  destruct (make_frames_rounds 1 2 3 Sample.st_ready "/tmp/tmp0" eq_refl
              (tmp_name_plain Sample.st0) eq_refl)
    as (st' & Hr & Hlog & Hrd & _).
  exists st'. split; [exact Hr|]. split; [exact Hlog | exact Hrd].
Defined.

Lemma make_frames_files_witness :
  exists st',
    BasicVideoMaker.make_frames 1 2 3 Sample.st_ready = (Returned tt, st')
    /\ files (os st') !! "/tmp/tmp0/1.png"
       = Some (FImage (mkImage 640 480
                         [Elevation 2; Azimuth 1; Roll 3;
                          Elevation 2; Azimuth 1; Roll 3])).
Proof.
  destruct (make_frames_files 1 2 3 Sample.st_ready "/tmp/tmp0" eq_refl
              (tmp_name_plain Sample.st0) eq_refl)
    as (st' & Hr & Himg & _).
  exists st'. split; [exact Hr|]. apply (Himg 1%nat). cbn. lia.
Defined.

Lemma make_frames_no_rounds_witness :
  let st := with_self (fun s => mkVideoMaker (save_fld s) (save_name s)
                                  (video_format s) (duration s) (-3) (fps s)
                                  (complete_save_path s) (tmp_dir s) (frames s))
              Sample.st_ready in
  (BasicVideoMaker.make_frames 1 2 3 st).1 = Returned tt
  /\ scene (BasicVideoMaker.make_frames 1 2 3 st).2 = scene st
  /\ files (os (BasicVideoMaker.make_frames 1 2 3 st).2) = files (os st).
Proof.
  cbv zeta.
  rewrite make_frames_no_rounds by (cbn; lia). by repeat split.
Defined.

(** ** Assembly, exactly *)





Section FilmedFolder.

Import Cv2 VideoUtils.

Context (name : string) (Hplain : plain_dir name).
Context (o : OS) (img : nat -> Image) (n : nat).
Hypothesis Hdir : name ∈ dirs o.
Hypothesis Himg : forall i, (i < n)%nat ->
  files o !! frame_path name i = Some (FImage (img i)).
Hypothesis Hoth : forall p, Os.under name p = true ->
  (forall i, (i < n)%nat -> p <> frame_path name i) -> files o !! p = None.
Hypothesis Hpos : (0 < n)%nat.



End FilmedFolder.





(** ** A whole build *)


Lemma elem_of_union_new (x y : string) (D : gset string) :
  y ∈ D -> y ∈ {[x]} ∪ D.
Proof. set_solver. Qed.









(** ** Build: the warning about the frame rate *)

Lemma fps_warnings_print n o :
  fps_warnings (Os.print n o).2
  = (fps_warnings o + if bool_decide (n = NFpsIgnored) then 1 else 0)%nat.
Proof.
  unfold fps_warnings, Os.print, modify. cbn.
  rewrite List.filter_app, length_app. cbn. by destruct (bool_decide _).
Qed.

Lemma keeps_warnings_print n : n <> NFpsIgnored -> keeps fps_warnings (Os.print n).
Proof.
  intros Hn o. rewrite fps_warnings_print, bool_decide_eq_false_2 by done. lia.
Qed.

Lemma keeps_warnings_input : keeps fps_warnings Os.input.
Proof.
  intros o. unfold Os.input, fps_warnings.
  destruct (stdin o); cbn; rewrite List.filter_app, length_app;
    cbn [List.filter]; rewrite bool_decide_eq_false_2 by discriminate;
    cbn; lia.
Qed.

Lemma keeps_warnings_overwrite_loop lines :
  keeps fps_warnings (BasicVideoMaker.overwrite_loop lines).
Proof.
  induction lines as [|yn rest IH]; cbn.
  - apply keeps_bind; [apply keeps_warnings_input | intros; apply keeps_raise].
  - apply keeps_bind; [apply keeps_warnings_input | intros a].
    destruct (bool_decide _).
    + apply keeps_bind; [by apply keeps_warnings_print | intros; apply keeps_ret].
    + destruct (bool_decide _); [apply keeps_ret | apply IH].
Qed.

Lemma keeps_warnings_write_frames wr l :
  keeps fps_warnings (VideoUtils.write_frames wr l).
Proof.
  induction l as [|x l IH]; cbn; [apply keeps_ret|].
  apply keeps_bind; [by apply keeps_modify | intros; apply IH].
Qed.

Lemma keeps_warnings_listdir p : keeps fps_warnings (Os.listdir p).
Proof. intros o. unfold Os.listdir. by case_bool_decide. Qed.

Ltac keep_warnings_leaf :=
  first
    [ apply (keeps_lift_os fps_warnings)
    | apply keeps_warnings_print; discriminate
    | apply keeps_warnings_write_frames
    | apply keeps_warnings_listdir
    | (intros ?; reflexivity) ].

Lemma keeps_warnings_get_cap_from_images_folder folder :
  keeps fps_warnings (VideoUtils.get_cap_from_images_folder folder).
Proof.
  unfold VideoUtils.get_cap_from_images_folder.
  repeat first [keep_warnings_leaf | frame_step].
Qed.

Lemma keeps_warnings_save_videocap_to_video cap savepath fmt fps0 :
  keeps fps_warnings (VideoUtils.save_videocap_to_video cap savepath fmt fps0).
Proof.
  unfold VideoUtils.save_videocap_to_video, VideoUtils.get_video_params,
    VideoUtils.open_cvwriter.
  repeat first [keep_warnings_leaf | frame_step].
Qed.

Lemma keeps_warnings_add_frame :
  keeps (fun st => fps_warnings (os st)) BasicVideoMaker.add_frame.
Proof.
  unfold BasicVideoMaker.add_frame.
  repeat first [keep_warnings_leaf | frame_step].
Qed.

Lemma keeps_warnings_frames_loop az el ro n :
  keeps (fun st => fps_warnings (os st)) (BasicVideoMaker.frames_loop az el ro n).
Proof.
  induction n as [|n IH]; cbn; [apply keeps_ret|].
  repeat first [apply keeps_warnings_add_frame | apply IH | frame_step].
Qed.

Lemma keeps_warnings_close :
  keeps (fun st => fps_warnings (os st)) BasicVideoMaker.close.
Proof.
  unfold BasicVideoMaker.close.
  repeat first
    [ apply keeps_warnings_get_cap_from_images_folder
    | apply keeps_warnings_save_videocap_to_video
    | keep_warnings_leaf
    | frame_step ].
Qed.

Lemma keeps_warnings_make_frames az el ro :
  keeps (fun st => fps_warnings (os st)) (BasicVideoMaker.make_frames az el ro).
Proof.
  unfold BasicVideoMaker.make_frames.
  repeat first [apply keeps_warnings_frames_loop | keep_warnings_leaf | frame_step].
Qed.

Lemma keeps_after {S A B X} (f : S -> X) (c : M S A) (k : M S B) s :
  keeps f k -> f (bind c (fun _ => k) s).2 = f (c s).2.
Proof.
  intros Hk. unfold bind. destruct (c s) as [[a|e] s1]; cbn; [apply Hk | done].
Qed.

Lemma lift_os_os {A} (c : M OS A) st : os (lift_os c st).2 = (c (os st)).2.
Proof. unfold lift_os. by destruct (c (os st)). Qed.

(** What follows the format check prints the warning once when the
    configuration has a duration, and never otherwise. *)
Lemma build_body_warnings az el ro s :
  fps_warnings (os (build_body az el ro s).2)
  = (fps_warnings (os s)
     + if BasicVideoMaker.is_not_None (duration (self s)) then 1 else 0)%nat.
Proof.
  unfold build_body. unfold bind at 1. unfold get at 1.
  rewrite (keeps_after (fun st => fps_warnings (os st))).
  - destruct (duration (self s)) as [d|]; cbn [BasicVideoMaker.is_not_None andb
      BasicVideoMaker.int_is_not_None].
    + rewrite lift_os_os, fps_warnings_print. by rewrite bool_decide_eq_true_2.
    + cbn. lia.
  - repeat first [ apply keeps_warnings_make_frames | apply keeps_warnings_close
                 | keep_warnings_leaf | frame_step ].
Qed.

(** In every run of [make_video], whatever its outcome, the warning that
    the frame rate will be ignored is printed once if the build gets past
    the format check and the call gave a duration, and not at all otherwise;
    whether the call gave a frame rate plays no part. *)
Theorem make_video_fps_warning az el ro kw st :
  fps_warnings (os (BasicVideoMaker.make_video az el ro kw st).2)
  = (fps_warnings (os st)
     + if reaches_validation kw st
          && negb (rejected_format (video_format (configured kw st)))
          && BasicVideoMaker.is_not_None (duration (configured kw st))
       then 1 else 0)%nat.
Proof.
  rewrite make_video_unfold. unfold reaches_validation.
  case_bool_decide as Hd; cbn [andb];
    [|cbn [snd]; rewrite Nat.add_0_r; reflexivity].
  assert (Hent : fps_warnings (os (st_entered kw st)) = fps_warnings (os st)).
  { unfold st_entered, fps_warnings. cbn.
    rewrite List.filter_app, length_app. cbn [List.filter].
    rewrite bool_decide_eq_false_2 by discriminate. cbn. lia. }
  destruct (files (os st) !! target_file kw st) as [x|] eqn:Hx.
  - rewrite bool_decide_eq_false_2 by done. cbn [orb].
    pose proof (keeps_lift_os fps_warnings _
                  (keeps_warnings_overwrite_loop (stdin (os st)))
                  (with_os (fun o => Os.set_stdout (stdout o ++ [NExistsAlready]) o)
                     (st_entered kw st))) as Hkeep.
    destruct (prompt_state kw st) as (s3 & Hs3 & Hself & _).
    rewrite Hs3 in Hkeep |- *. cbn [snd] in Hkeep.
    assert (Hw3 : fps_warnings (os s3) = fps_warnings (os st)).
    { rewrite Hkeep, <- Hent. unfold fps_warnings. cbn.
      rewrite !List.filter_app, !length_app. cbn [List.filter].
      rewrite !bool_decide_eq_false_2 by discriminate. cbn. lia. }
    destruct (first_answer (stdin (os st))) as [[]|]; cbn [orb].
    + rewrite bool_decide_eq_true_2 by done.
      destruct (rejected_format _); cbn [negb andb snd];
        [rewrite Nat.add_0_r; exact Hw3|].
      by rewrite build_body_warnings, Hw3, Hself.
    + rewrite bool_decide_eq_false_2 by done. cbn [negb andb snd].
      rewrite Nat.add_0_r. exact Hw3.
    + rewrite bool_decide_eq_false_2 by done. cbn [negb andb snd].
      rewrite Nat.add_0_r. exact Hw3.
  - rewrite bool_decide_eq_true_2 by done. cbn [orb].
    destruct (rejected_format _); cbn [negb andb snd];
      [rewrite Nat.add_0_r; exact Hent|].
    by rewrite build_body_warnings, Hent.
Qed.

(** ** A duration of zero *)



(** ** Build: where an existing video is looked for *)

Lemma exists_notices_print n o :
  exists_notices (Os.print n o).2
  = (exists_notices o + if bool_decide (n = NExistsAlready) then 1 else 0)%nat.
Proof.
  unfold exists_notices, Os.print, modify. cbn.
  rewrite List.filter_app, length_app. cbn. by destruct (bool_decide _).
Qed.

Lemma keeps_exists_print n : n <> NExistsAlready -> keeps exists_notices (Os.print n).
Proof.
  intros Hn o. rewrite exists_notices_print, bool_decide_eq_false_2 by done. lia.
Qed.

Lemma keeps_exists_input : keeps exists_notices Os.input.
Proof.
  intros o. unfold Os.input, exists_notices.
  destruct (stdin o); cbn; rewrite List.filter_app, length_app;
    cbn [List.filter]; rewrite bool_decide_eq_false_2 by discriminate;
    cbn; lia.
Qed.

Lemma keeps_exists_overwrite_loop lines :
  keeps exists_notices (BasicVideoMaker.overwrite_loop lines).
Proof.
  induction lines as [|yn rest IH]; cbn.
  - apply keeps_bind; [apply keeps_exists_input | intros; apply keeps_raise].
  - apply keeps_bind; [apply keeps_exists_input | intros a].
    destruct (bool_decide _).
    + apply keeps_bind; [by apply keeps_exists_print | intros; apply keeps_ret].
    + destruct (bool_decide _); [apply keeps_ret | apply IH].
Qed.

Lemma keeps_exists_write_frames wr l :
  keeps exists_notices (VideoUtils.write_frames wr l).
Proof.
  induction l as [|x l IH]; cbn; [apply keeps_ret|].
  apply keeps_bind; [by apply keeps_modify | intros; apply IH].
Qed.

Lemma keeps_exists_listdir p : keeps exists_notices (Os.listdir p).
Proof. intros o. unfold Os.listdir. by case_bool_decide. Qed.

Ltac keep_exists_leaf :=
  first
    [ apply (keeps_lift_os exists_notices)
    | apply keeps_exists_print; discriminate
    | apply keeps_exists_write_frames
    | apply keeps_exists_listdir
    | (intros ?; reflexivity) ].

Lemma keeps_exists_get_cap_from_images_folder folder :
  keeps exists_notices (VideoUtils.get_cap_from_images_folder folder).
Proof.
  unfold VideoUtils.get_cap_from_images_folder.
  repeat first [keep_exists_leaf | frame_step].
Qed.

Lemma keeps_exists_save_videocap_to_video cap savepath fmt fps0 :
  keeps exists_notices (VideoUtils.save_videocap_to_video cap savepath fmt fps0).
Proof.
  unfold VideoUtils.save_videocap_to_video, VideoUtils.get_video_params,
    VideoUtils.open_cvwriter.
  repeat first [keep_exists_leaf | frame_step].
Qed.

Lemma keeps_exists_add_frame :
  keeps (fun st => exists_notices (os st)) BasicVideoMaker.add_frame.
Proof.
  unfold BasicVideoMaker.add_frame.
  repeat first [keep_exists_leaf | frame_step].
Qed.

Lemma keeps_exists_frames_loop az el ro n :
  keeps (fun st => exists_notices (os st)) (BasicVideoMaker.frames_loop az el ro n).
Proof.
  induction n as [|n IH]; cbn; [apply keeps_ret|].
  repeat first [apply keeps_exists_add_frame | apply IH | frame_step].
Qed.

Lemma keeps_exists_close :
  keeps (fun st => exists_notices (os st)) BasicVideoMaker.close.
Proof.
  unfold BasicVideoMaker.close.
  repeat first
    [ apply keeps_exists_get_cap_from_images_folder
    | apply keeps_exists_save_videocap_to_video
    | keep_exists_leaf
    | frame_step ].
Qed.

Lemma keeps_exists_make_frames az el ro :
  keeps (fun st => exists_notices (os st)) (BasicVideoMaker.make_frames az el ro).
Proof.
  unfold BasicVideoMaker.make_frames.
  repeat first [apply keeps_exists_frames_loop | keep_exists_leaf | frame_step].
Qed.

Lemma keeps_exists_build_body az el ro :
  keeps (fun st => exists_notices (os st)) (build_body az el ro).
Proof.
  unfold build_body.
  repeat first [ apply keeps_exists_make_frames | apply keeps_exists_close
               | keep_exists_leaf | frame_step ].
Qed.

Lemma startswith_sep_app (a b : string) :
  a <> "" -> Py.startswith "/" (a +:+ b) = Py.startswith "/" a.
Proof. by destruct a. Qed.

Lemma join_relative (a b : string) :
  Py.startswith "/" b = false ->
  OsPath.join a b
  = a +:+ (if bool_decide (a = "") || Py.endswith_char "/" a then "" else "/") +:+ b.
Proof.
  intros Hb. unfold OsPath.join, OsPath.sep. rewrite Hb.
  by destruct (_ || _).
Qed.

(** A stored name [name.format] is relative when the name is. *)
Lemma file_name_relative (name fmt : string) :
  Py.startswith "/" name = false ->
  Py.startswith "/" (name +:+ "." +:+ fmt) = false.
Proof. by destruct name. Qed.

(** The path that [make_video] tests and writes, in closed form. *)
Lemma target_file_path kw st :
  save_fld (configured kw st) <> "" ->
  Py.startswith "/" (save_name (configured kw st)) = false ->
  target_file kw st
  = if Py.startswith "/" (save_fld (configured kw st))
    then OsPath.join (save_fld (configured kw st))
           (save_name (configured kw st) +:+ "."
              +:+ video_format (configured kw st))
    else OsPath.join
           (OsPath.join
              (OsPath.join (cwd (os st)) (save_fld (configured kw st)))
              (save_fld (configured kw st)))
           (save_name (configured kw st) +:+ "."
              +:+ video_format (configured kw st)).
Proof.
  intros Hne Hname.
  unfold target_file, target_folder, OsPath.resolve.
  set (d := save_fld (configured kw st)) in *.
  set (nm := save_name (configured kw st) +:+ "."
               +:+ video_format (configured kw st)).
  assert (Hnm : Py.startswith "/" nm = false) by (by apply file_name_relative).
  rewrite (join_relative d nm Hnm).
  destruct (Py.startswith "/" d) eqn:Hd.
  - unfold OsPath.join at 1. unfold OsPath.sep.
    by rewrite startswith_app_l.
  - assert (Hrel : Py.startswith "/"
                     (d +:+ (if bool_decide (d = "") || Py.endswith_char "/" d
                             then "" else "/") +:+ nm) = false)
      by (by rewrite startswith_sep_app).
    rewrite (join_relative _ _ Hrel), (join_relative _ nm Hnm).
    rewrite (join_relative (OsPath.join (cwd (os st)) d) d Hd).
    set (r := OsPath.join (cwd (os st)) d).
    assert (Hend : (bool_decide (r +:+ (if bool_decide (r = "")
                                           || Py.endswith_char "/" r
                                        then "" else "/") +:+ d = "")
                    || Py.endswith_char "/"
                         (r +:+ (if bool_decide (r = "") || Py.endswith_char "/" r
                                 then "" else "/") +:+ d))
                   = (bool_decide (d = "") || Py.endswith_char "/" d)).
    { rewrite <- string_app_assoc, (endswith_char_app _ _ d Hne).
      rewrite (bool_decide_eq_false_2 (d = "")) by done.
      rewrite bool_decide_eq_false_2; [done|].
      intros H. apply (f_equal String.length) in H.
      rewrite string_app_length in H. destruct d; [done|]. cbn in H. lia. }
    rewrite Hend. by rewrite !string_app_assoc.
Qed.

(** [make_video] announces an existing video file exactly when there is a
    file at the stored path as seen from the output folder: for an absolute
    folder the path [folder/name.format]; for a relative folder [d], the
    path [cwd/d/d/name.format], the folder being applied once by
    [os.chdir] and once more by the stored path, so that a video already at
    [cwd/d/name.format] is not seen. *)
Theorem make_video_existing_file_path az el ro kw st :
  save_fld (configured kw st) <> "" ->
  Py.startswith "/" (save_name (configured kw st)) = false ->
  target_folder kw st ∈ dirs (os st) ->
  exists_notices (os (BasicVideoMaker.make_video az el ro kw st).2)
  = (exists_notices (os st)
     + if bool_decide
            (is_Some
               (files (os st) !!
                  (if Py.startswith "/" (save_fld (configured kw st))
                   then OsPath.join (save_fld (configured kw st))
                          (save_name (configured kw st) +:+ "."
                             +:+ video_format (configured kw st))
                   else OsPath.join
                          (OsPath.join
                             (OsPath.join (cwd (os st))
                                (save_fld (configured kw st)))
                             (save_fld (configured kw st)))
                          (save_name (configured kw st) +:+ "."
                             +:+ video_format (configured kw st)))))
       then 1 else 0)%nat.
Proof.
  intros Hne Hname Hfld.
  rewrite <- (target_file_path kw st Hne Hname).
  rewrite make_video_unfold.
  rewrite bool_decide_eq_true_2 by (by apply elem_of_union_new).
  assert (Hent : exists_notices (os (st_entered kw st)) = exists_notices (os st)).
  { unfold st_entered, exists_notices. cbn.
    rewrite List.filter_app, length_app. cbn [List.filter].
    rewrite bool_decide_eq_false_2 by discriminate. cbn. lia. }
  destruct (files (os st) !! target_file kw st) as [x|] eqn:Hx.
  - rewrite bool_decide_eq_true_2 by done.
    pose proof (keeps_lift_os exists_notices _
                  (keeps_exists_overwrite_loop (stdin (os st)))
                  (with_os (fun o => Os.set_stdout (stdout o ++ [NExistsAlready]) o)
                     (st_entered kw st))) as Hkeep.
    destruct (prompt_state kw st) as (s3 & Hs3 & Hself & _).
    rewrite Hs3 in Hkeep |- *. cbn [snd] in Hkeep.
    assert (Hw3 : exists_notices (os s3) = (exists_notices (os st) + 1)%nat).
    { rewrite Hkeep, <- Hent. unfold exists_notices. cbn.
      rewrite !List.filter_app, !length_app. cbn [List.filter].
      rewrite !bool_decide_eq_false_2 by discriminate.
      rewrite bool_decide_eq_true_2 by done. cbn. lia. }
    destruct (first_answer (stdin (os st))) as [[]|]; cbn [snd]; try exact Hw3.
    destruct (rejected_format _); cbn [snd]; [exact Hw3|].
    by rewrite (keeps_exists_build_body az el ro s3).
  - rewrite bool_decide_eq_false_2 by (intros [? [=]]).
    rewrite Nat.add_0_r.
    destruct (rejected_format _); cbn [snd]; [exact Hent|].
    by rewrite (keeps_exists_build_body az el ro (st_entered kw st)).
Qed.

Lemma make_video_existing_file_path_witness :
  is_Some (files (os st_relative) !! "/home/out/v.mp4")
  /\ exists_notices
       (os (BasicVideoMaker.make_video 1 0 0 kw_relative st_relative).2) = 0%nat.
Proof.
  split; [eexists; reflexivity|].
  rewrite (make_video_existing_file_path 1 0 0 kw_relative st_relative).
  - reflexivity.
  - discriminate.
  - reflexivity.
  - apply (bool_decide_unpack _). vm_compute. exact I.
Defined.
